(** * git-clean: pruning local branches whose upstream is gone

    A shallow embedding of the two scripts of the repository,
    [src/git-clean.js] and [src/git-cleanup.js], and the properties of
    their branch classifier, configuration lookup and deletion loop.

    - JavaScript strings are sequences of UTF-16 code units: [jsstring] is
      [list N], so that [String.prototype.trim] can be given its real
      white-space set (which is not limited to ASCII).
    - The calls the scripts make to the outside (child processes, the file
      system, the prompt library, dynamic imports) are the constructors of
      [call]; a script is a tree of such calls ([prog]), run against an
      arbitrary environment that answers them ([run]). *)

From Stdlib Require Import List NArith ZArith Bool String Ascii Lia.
From ExtLib Require Import Structures.Monad.
Import ListNotations.
Import MonadNotation.

Local Open Scope N_scope.
Local Open Scope list_scope.
Local Open Scope bool_scope.

(** ** JavaScript strings *)

Module JS.

Definition jsstring : Type := list N.

(** A string literal of the source (ASCII only), as code units. *)
Definition str (s : string) : jsstring :=
  map N_of_ascii (list_ascii_of_string s).

Arguments str : simpl never.

Fixpoint eqb (s t : jsstring) : bool :=
  match s, t with
  | [], [] => true
  | a :: s', b :: t' => (a =? b) && eqb s' t'
  | _, _ => false
  end.

(** [WhiteSpace] and [LineTerminator] of ECMAScript: what [trim] strips. *)
Definition is_white_space (c : N) : bool :=
  (c =? 9) || (c =? 10) || (c =? 11) || (c =? 12) || (c =? 13) || (c =? 32)
  || (c =? 160) || (c =? 5760) || ((8192 <=? c) && (c <=? 8202))
  || (c =? 8232) || (c =? 8233) || (c =? 8239) || (c =? 8287)
  || (c =? 12288) || (c =? 65279).

Fixpoint drop_while (p : N -> bool) (s : jsstring) : jsstring :=
  match s with
  | [] => []
  | c :: s' => if p c then drop_while p s' else s
  end.

Fixpoint take_while (p : N -> bool) (s : jsstring) : jsstring :=
  match s with
  | [] => []
  | c :: s' => if p c then c :: take_while p s' else []
  end.

Definition trimStart (s : jsstring) : jsstring := drop_while is_white_space s.
Definition trimEnd (s : jsstring) : jsstring := rev (drop_while is_white_space (rev s)).

(** [s.trim()] *)
Definition trim (s : jsstring) : jsstring := trimEnd (trimStart s).

Fixpoint startsWith (p s : jsstring) : bool :=
  match p, s with
  | [], _ => true
  | a :: p', b :: s' => (a =? b) && startsWith p' s'
  | _ :: _, [] => false
  end.

(** [s.includes(sub)]: [sub] occurs in [s] as a substring. *)
Fixpoint includes (sub s : jsstring) : bool :=
  startsWith sub s ||
  match s with
  | [] => false
  | _ :: s' => includes sub s'
  end.

(** [s.split(sep)] for a separator of one code unit, as both scripts use
    it (['\n'] and [' ']).  The result is never empty: [''.split(sep)] is
    [['']]. *)
Fixpoint split (sep : N) (s : jsstring) : list jsstring :=
  match s with
  | [] => [[]]
  | c :: s' =>
      if c =? sep then [] :: split sep s'
      else match split sep s' with
           | t :: ts => (c :: t) :: ts
           | [] => [[c]]
           end
  end.

(** [parts[0]]: the first element; [undefined] is only possible for an
    empty array, which [split] never returns (lemma [split_not_nil]). *)
Definition first (parts : list jsstring) : jsstring :=
  match parts with
  | t :: _ => t
  | [] => []
  end.

Definition LF : N := 10.
Definition SPACE : N := 32.

End JS.

Import JS.

(** ** JavaScript values the scripts handle *)

Set Warnings "-register-all".

(** What [JSON.parse] can return.  A number is kept as its IEEE 754
    binary64 bit pattern; an object as its own properties. *)
Inductive json : Type :=
| JNull
| JBool (b : bool)
| JNumber (bits : N)
| JString (s : jsstring)
| JArray (items : list json)
| JObject (props : list (jsstring * json)).

(** What [execFileSync], [readFileSync], [JSON.parse], a rejected prompt or
    a failed import throw: an [Error] with its [message] and, for a child
    process, the captured [stderr] when there is one. *)
Record error : Type := mkError {
  message : jsstring;
  stderr : option jsstring
}.

(** ToBoolean on a parsed value. *)
Definition truthy (v : json) : bool :=
  match v with
  | JNull => false
  | JBool b => b
  | JNumber bits =>
      (* +0 and -0 are falsy, and so is NaN *)
      negb ((bits =? 0) || (bits =? 0x8000000000000000)
            || ((N.land (N.shiftr bits 52) 0x7ff =? 0x7ff)
                && negb (N.land bits 0xfffffffffffff =? 0)))
  | JString s => negb (JS.eqb s [])
  | JArray _ => true
  | JObject _ => true
  end.

Arguments truthy : simpl never.

Definition isArray (v : json) : bool :=
  match v with
  | JArray _ => true
  | _ => false
  end.

Fixpoint lookup (key : jsstring) (props : list (jsstring * json)) : option json :=
  match props with
  | [] => None
  | (k, v) :: rest => if JS.eqb k key then Some v else lookup key rest
  end.

(** The elements of an array value. *)
Definition elements (v : json) : list json :=
  match v with
  | JArray items => items
  | _ => []
  end.

(** [v.key] for a key no prototype defines: a [TypeError] on [null],
    [undefined] ([None]) on anything that is not an object having it. *)
Definition get_property (v : json) (key : jsstring) : error + option json :=
  match v with
  | JNull => inl (mkError (str "Cannot read properties of null") None)
  | JObject props => inr (lookup key props)
  | _ => inr None
  end.

(** [arr.includes(s)] for a string [s]: SameValueZero equals a string only
    to an equal string. *)
Definition array_includes (arr : list json) (s : jsstring) : bool :=
  existsb (fun v => match v with JString t => JS.eqb t s | _ => false end) arr.

(** ** The outside world, as the scripts call it *)

(** The [stdio]/[encoding] option object passed to [execFileSync]. *)
Inductive exec_options : Type :=
| NoOptions
| StdioIgnore
| StdioInherit
| EncodingUtf8.

Inductive call : Type -> Type :=
| Import (specifier : jsstring) : call (error + unit)
| ExecFileSync (file : jsstring) (args : list jsstring) (o : exec_options)
  : call (error + jsstring)
| ExistsSync (path : jsstring) : call bool
| ReadFileSync (path : jsstring) : call (error + jsstring)
| JSONParse (text : jsstring) : call (error + json)
| PromptCheckbox (choices : list jsstring) : call (error + list jsstring)
| PromptConfirm (branch : jsstring) : call (error + bool).

Inductive console : Type := Log | Warn | Error.

(** The lines the scripts print (colour and pictographs left out). *)
Inductive notice : Type :=
| MsgLoadedConfig
| MsgUsingDefaults
| MsgConfigError (detail : jsstring)
| MsgFallingBack
| MsgDryRun
| MsgNotARepository
| MsgFetching
| MsgFetchFailed
| MsgStderr (text : jsstring)
| MsgNothingToDo
| MsgCancelled
| MsgBlank
| MsgDeleted (branch : jsstring)
| MsgWouldDelete (branch : jsstring)
| MsgUnmerged (branch : jsstring)
| MsgForceDeleted (branch : jsstring)
| MsgWouldForceDelete (branch : jsstring)
| MsgForceDeleteFailed (branch : jsstring) (detail : option jsstring)
| MsgSkipped (branch : jsstring)
| MsgDeleteFailed (branch : jsstring) (detail : option jsstring)
| MsgComplete
| MsgUnexpected (err : error).

(** A script: a tree of calls and prints that ends by returning, by
    throwing, or by [process.exit].  [Defer job k] queues [job] as a promise
    reaction and goes on with [k]. *)
Inductive prog (A : Type) : Type :=
| Ret (a : A)
| Throw (e : error)
| Exit (code : Z)
| Emit (c : console) (m : notice) (k : prog A)
| Vis {X : Type} (c : call X) (k : X -> prog A)
| Defer (job : prog unit) (k : prog A).

Arguments Ret {A} a.
Arguments Throw {A} e.
Arguments Exit {A} code.
Arguments Emit {A} c m k.
Arguments Vis {A X} c k.
Arguments Defer {A} job k.

Fixpoint bind_prog {A B : Type} (p : prog A) (f : A -> prog B) : prog B :=
  match p with
  | Ret a => f a
  | Throw e => Throw e
  | Exit code => Exit code
  | Emit c m k => Emit c m (bind_prog k f)
  | Vis c k => Vis c (fun x => bind_prog (k x) f)
  | Defer job k => Defer job (bind_prog k f)
  end.

#[export] Instance Monad_prog : Monad prog :=
  {| ret := @Ret; bind := @bind_prog |}.

(** [try { p } catch (e) { handler e }] *)
Fixpoint try_catch {A : Type} (p : prog A) (handler : error -> prog A) : prog A :=
  match p with
  | Ret a => Ret a
  | Throw e => handler e
  | Exit code => Exit code
  | Emit c m k => Emit c m (try_catch k handler)
  | Vis c k => Vis c (fun x => try_catch (k x) handler)
  | Defer job k => Defer job (try_catch k handler)
  end.

(** [for (const x of xs) { body x }] *)
Fixpoint for_of {A : Type} (xs : list A) (body : A -> prog unit) : prog unit :=
  match xs with
  | [] => Ret tt
  | x :: rest => bind_prog (body x) (fun _ => for_of rest body)
  end.

Definition console_log (m : notice) : prog unit := Emit Log m (Ret tt).
Definition console_warn (m : notice) : prog unit := Emit Warn m (Ret tt).
Definition console_error (m : notice) : prog unit := Emit Error m (Ret tt).

(** A call that never throws. *)
Definition perform {X : Type} (c : call X) : prog X := Vis c Ret.

(** A call that returns or throws. *)
Definition attempt {X : Type} (c : call (error + X)) : prog X :=
  Vis c (fun r => match r with inl e => Throw e | inr x => Ret x end).

Definition lift {X : Type} (r : error + X) : prog X :=
  match r with inl e => Throw e | inr x => Ret x end.

(** [if (c) { p }] *)
Definition when (c : bool) (p : prog unit) : prog unit :=
  if c then p else Ret tt.

(** ** Running a script against an environment *)

Inductive event : Type :=
| Called {X : Type} (c : call X) (answer : X)
| Printed (c : console) (m : notice).

Inductive outcome (A : Type) : Type :=
| Returned (a : A)
| Threw (e : error)
| Exited (code : Z).

Arguments Returned {A} a.
Arguments Threw {A} e.
Arguments Exited {A} code.

Record result (W A : Type) : Type := mkResult {
  trace : list event;
  world : W;
  pending : list (prog unit);
  outcome_of : outcome A
}.

Arguments mkResult {W A}.
Arguments trace {W A}.
Arguments world {W A}.
Arguments pending {W A}.
Arguments outcome_of {W A}.

(** An environment answers every call from its current state. *)
Definition env (W : Type) : Type := forall X : Type, call X -> W -> X * W.

Fixpoint run {W A : Type} (h : env W) (p : prog A) (w : W) : result W A :=
  match p with
  | Ret a => mkResult [] w [] (Returned a)
  | Throw e => mkResult [] w [] (Threw e)
  | Exit code => mkResult [] w [] (Exited code)
  | Emit c m k =>
      let r := run h k w in
      mkResult (Printed c m :: trace r) (world r) (pending r) (outcome_of r)
  | Vis c k =>
      let '(x, w1) := h _ c w in
      let r := run h (k x) w1 in
      mkResult (Called c x :: trace r) (world r) (pending r) (outcome_of r)
  | Defer job k =>
      let r := run h k w in
      mkResult (trace r) (world r) (job :: pending r) (outcome_of r)
  end.

(** The queued reactions run once the job that queued them is over. *)
Fixpoint run_jobs {W : Type} (h : env W) (jobs : list (prog unit)) (w : W)
  : list event * W :=
  match jobs with
  | [] => ([], w)
  | job :: rest =>
      let r := run h job w in
      let '(t, w') := run_jobs h rest (world r) in
      (trace r ++ t, w')
  end.

(** A whole process: what it did and its exit status.  [process.exit]
    ends it at once, and whatever is still queued never runs; a script that
    runs to its end exits with 0 after the queue is drained. *)
Definition run_process {W : Type} (h : env W) (script : prog unit) (w : W)
  : list event * Z :=
  let r := run h script w in
  match outcome_of r with
  | Exited code => (trace r, code)
  | Returned _ => (trace r ++ fst (run_jobs h (pending r) (world r)), 0%Z)
  | Threw _ => (trace r ++ fst (run_jobs h (pending r) (world r)), 1%Z)
  end.

Local Open Scope monad_scope.

(** ** Pieces both scripts spell the same way *)

Definition git : jsstring := str "git".

(** The marker [git branch -vv] prints for a vanished upstream. *)
Definition gone_marker : jsstring := str ": gone]".

Definition not_fully_merged : jsstring := str "not fully merged".

(** [line.trim().split(' ')[0]] *)
Definition branch_of_line (line : jsstring) : jsstring :=
  first (split SPACE (trim line)).

Definition rev_parse_args : list jsstring :=
  [str "rev-parse"; str "--is-inside-work-tree"].
Definition fetch_args : list jsstring := [str "fetch"; str "-p"].
Definition branch_vv_args : list jsstring := [str "branch"; str "-vv"].
Definition delete_args (branch : jsstring) : list jsstring :=
  [str "branch"; str "-d"; branch].
Definition force_delete_args (branch : jsstring) : list jsstring :=
  [str "branch"; str "-D"; branch].

(** ** src/git-clean.js *)

Module GitClean.

(** [getInquirer], lines 8-11 *)
Definition getInquirer : prog unit := attempt (Import (str "inquirer")).

(** line 39 *)
Definition protectedBranches : list json :=
  [JString (str "main"); JString (str "master");
   JString (str "develop"); JString (str "dev")].

(** lines 41-45 *)
Definition goneBranches (branchesOutput : jsstring) : list jsstring :=
  filter (fun branch => negb (array_includes protectedBranches branch))
    (map branch_of_line
       (filter (fun line => includes gone_marker line)
          (split LF branchesOutput))).

(** The body of the loop of [main], lines 73-107. *)
Definition delete_branch (branch : jsstring) : prog unit :=
  try_catch
    (_ <- attempt (ExecFileSync git (delete_args branch) NoOptions) ;;
     console_log (MsgDeleted branch))
    (fun err =>
       if includes not_fully_merged (message err) then
         console_warn (MsgUnmerged branch) ;;
         forceDelete <- attempt (PromptConfirm branch) ;;
         if (forceDelete : bool) then
           try_catch
             (_ <- attempt (ExecFileSync git (force_delete_args branch) NoOptions) ;;
              console_log (MsgForceDeleted branch))
             (fun forceErr =>
                console_error (MsgForceDeleteFailed branch (Some (message forceErr))))
         else
           console_log (MsgSkipped branch)
       else
         console_error (MsgDeleteFailed branch (Some (message err)))).

(** [main], lines 16-38: the repository check, the fetch and the
    listing. *)
Definition main_listing : prog jsstring :=
  try_catch
    (_ <- attempt (ExecFileSync git rev_parse_args StdioIgnore) ;; ret tt)
    (fun e => console_error MsgNotARepository ;; Exit 1) ;;
  console_log MsgFetching ;;
  try_catch
    (_ <- attempt (ExecFileSync git fetch_args StdioInherit) ;; ret tt)
    (fun e => console_error MsgFetchFailed ;; Exit 1) ;;
  attempt (ExecFileSync git branch_vv_args EncodingUtf8).

(** [main], lines 39-67: the candidates and the checkbox prompt. *)
Definition main_selection : prog (list jsstring) :=
  branchesOutput <- main_listing ;;
  let goneBranches := goneBranches branchesOutput in
  when (Nat.eqb (List.length goneBranches) 0)
    (console_log MsgNothingToDo ;; Exit 0) ;;
  getInquirer ;;
  branchesToDelete <- attempt (PromptCheckbox goneBranches) ;;
  when (Nat.eqb (List.length branchesToDelete) 0)
    (console_log MsgCancelled ;; Exit 0) ;;
  ret branchesToDelete.

(** [main], lines 16-111: the above, then the deletions. *)
Definition main : prog unit :=
  branchesToDelete <- main_selection ;;
  console_log MsgBlank ;;
  for_of branchesToDelete delete_branch ;;
  console_log MsgComplete.

(** [main().catch(...)], lines 113-116 *)
Definition script : prog unit :=
  try_catch main
    (fun err => console_error (MsgUnexpected err) ;; Exit 1).

End GitClean.

(** ** src/git-cleanup.js *)

Module GitCleanup.

(** [getDependencies], lines 10-14 *)
Definition getDependencies : prog unit :=
  attempt (Import (str "inquirer")) ;;
  attempt (Import (str "chalk")).

Definition configPath : jsstring := str ".git-cleanup-config.json".

(** line 23 *)
Definition defaults : list json :=
  [JString (str "main"); JString (str "master");
   JString (str "develop"); JString (str "dev");
   JString (str "prod"); JString (str "production")].

(** [getProtectedBranches], lines 21-41.  The inner block yields the
    array it returns early with, if it does. *)
Definition getProtectedBranches : prog (list json) :=
  try_catch
    (found <-
       (present <- perform (ExistsSync configPath) ;;
        if (present : bool) then
          configFile <- attempt (ReadFileSync configPath) ;;
          config <- attempt (JSONParse configFile) ;;
          field <- lift (get_property config (str "protectedBranches")) ;;
          match field with
          | Some v =>
              if truthy v && isArray v then
                console_log MsgLoadedConfig ;; ret (Some (elements v))
              else ret None
          | None => ret None
          end
        else ret None) ;;
     match found with
     | Some items => ret items
     | None => console_log MsgUsingDefaults ;; ret defaults
     end)
    (fun error =>
       console_error (MsgConfigError (message error)) ;;
       console_log MsgFallingBack ;;
       ret defaults).

(** lines 78-82 *)
Definition goneBranches (branchesOutput : jsstring) (protectedBranches : list json)
  : list jsstring :=
  filter (fun branch => negb (array_includes protectedBranches branch))
    (map branch_of_line
       (filter (fun line => includes gone_marker line)
          (split LF branchesOutput))).

(** [if (err.stderr) console.error(err.stderr.toString())] *)
Definition print_stderr (e : error) : prog unit :=
  match stderr e with
  | Some text => console_error (MsgStderr text)
  | None => ret tt
  end.

(** The body of the loop of [main], lines 111-154. *)
Definition delete_branch (dryRun : bool) (branch : jsstring) : prog unit :=
  try_catch
    (if dryRun then
       console_log (MsgWouldDelete branch)
     else
       _ <- attempt (ExecFileSync git (delete_args branch) NoOptions) ;;
       console_log (MsgDeleted branch))
    (fun err =>
       if includes not_fully_merged (message err) then
         console_warn (MsgUnmerged branch) ;;
         forceDelete <- attempt (PromptConfirm branch) ;;
         if (forceDelete : bool) then
           try_catch
             (if dryRun then
                console_log (MsgWouldForceDelete branch)
              else
                _ <- attempt (ExecFileSync git (force_delete_args branch) NoOptions) ;;
                console_log (MsgForceDeleted branch))
             (fun forceErr =>
                console_error (MsgForceDeleteFailed branch None) ;;
                print_stderr forceErr)
         else
           console_log (MsgSkipped branch)
       else
         console_error (MsgDeleteFailed branch None) ;;
         print_stderr err).

(** [process.argv.includes('--dry-run')] *)
Definition argv_includes (argv : list jsstring) (flag : jsstring) : bool :=
  existsb (fun a => JS.eqb a flag) argv.

(** line 48 *)
Definition isDryRun (argv : list jsstring) : bool :=
  argv_includes argv (str "--dry-run").

(** [main], lines 46-76: the imports, the dry-run notice, the repository
    check, the fetch, the listing and the protected names. *)
Definition main_listing (argv : list jsstring) : prog (jsstring * list json) :=
  getDependencies ;;
  when (isDryRun argv) (console_log MsgDryRun) ;;
  try_catch
    (_ <- attempt (ExecFileSync git rev_parse_args StdioIgnore) ;; ret tt)
    (fun e => console_error MsgNotARepository ;; Exit 1) ;;
  console_log MsgFetching ;;
  try_catch
    (_ <- attempt (ExecFileSync git fetch_args StdioInherit) ;; ret tt)
    (fun e => console_error MsgFetchFailed ;; print_stderr e ;; Exit 1) ;;
  branchesOutput <- attempt (ExecFileSync git branch_vv_args EncodingUtf8) ;;
  protectedBranches <- getProtectedBranches ;;
  ret (branchesOutput, protectedBranches).

(** [main], lines 78-105: the candidates and the checkbox prompt. *)
Definition main_selection (argv : list jsstring) : prog (list jsstring) :=
  listed <- main_listing argv ;;
  let goneBranches := goneBranches (fst listed) (snd listed) in
  when (Nat.eqb (List.length goneBranches) 0)
    (console_log MsgNothingToDo ;; Exit 0) ;;
  branchesToDelete <- attempt (PromptCheckbox goneBranches) ;;
  when (Nat.eqb (List.length branchesToDelete) 0)
    (console_log MsgCancelled ;; Exit 0) ;;
  ret branchesToDelete.

(** [main], lines 46-158: the above, then the deletions. *)
Definition main (argv : list jsstring) : prog unit :=
  branchesToDelete <- main_selection argv ;;
  console_log MsgBlank ;;
  for_of branchesToDelete (delete_branch (isDryRun argv)) ;;
  console_log MsgComplete.

(** [main().catch(...)], lines 160-166: the handler asks for [chalk] and
    leaves the printing to the promise's reaction, then calls
    [process.exit(1)]. *)
Definition script (argv : list jsstring) : prog unit :=
  try_catch (main argv)
    (fun err =>
       Defer (attempt (Import (str "chalk")) ;;
              console_error (MsgUnexpected err))
             (Exit 1)).

End GitCleanup.

(** ** The classifier in the words of the specification *)

Module Spec.

(** "splitting the text into lines" *)
Definition lines (text : jsstring) : list jsstring := split LF text.

(** "the first whitespace-delimited token": the longest run of
    non-white-space code units after the leading white space. *)
Definition first_whitespace_token (line : jsstring) : jsstring :=
  take_while (fun c => negb (is_white_space c)) (drop_while is_white_space line).

(** The first token when only U+0020 ends a token. *)
Definition first_space_token (line : jsstring) : jsstring :=
  take_while (fun c => negb (c =? SPACE)) (drop_while is_white_space line).

(** Lines with the marker, one token each, protected names removed. *)
Definition candidates_with (token : jsstring -> jsstring)
    (text : jsstring) (protectedSet : list json) : list jsstring :=
  filter (fun name => negb (array_includes protectedSet name))
    (map token (filter (includes gone_marker) (lines text))).

Definition candidates := candidates_with first_whitespace_token.
Definition candidates_by_space := candidates_with first_space_token.

End Spec.

(** [parts.join(sep)] *)
Fixpoint join (sep : N) (parts : list jsstring) : jsstring :=
  match parts with
  | [] => []
  | [t] => t
  | t :: rest => t ++ sep :: join sep rest
  end.

(** A status line whose branch column holds a tab. *)
Definition tabbed_line : jsstring :=
  str "a" ++ [9] ++ str "b 1a2b3c4 [origin/b: gone] msg".

(** The status line of a checked-out branch whose upstream is gone. *)
Definition starred_line : jsstring :=
  str "* feature-x 1a2b3c4 [origin/feature-x: gone] msg".

(** ** What a trace shows *)

(** The arguments of a [git] child process. *)
Definition git_args (e : event) : option (list jsstring) :=
  match e with
  | Called c _ =>
      match c with
      | ExecFileSync file args _ => if JS.eqb file git then Some args else None
      | _ => None
      end
  | Printed _ _ => None
  end.

(** [git branch -d ...] or [git branch -D ...]: the two commands that
    remove a branch. *)
Definition mutating_delete (e : event) : bool :=
  match git_args e with
  | Some (a :: b :: _) =>
      JS.eqb a (str "branch") && (JS.eqb b (str "-d") || JS.eqb b (str "-D"))
  | _ => false
  end.

(** The branch of a [git branch -d <branch>] invocation. *)
Definition safe_delete_of (e : event) : list jsstring :=
  match git_args e with
  | Some [a; b; branch] =>
      if JS.eqb a (str "branch") && JS.eqb b (str "-d") then [branch] else []
  | _ => []
  end.

(** The branch of a [git branch -D <branch>] invocation. *)
Definition force_delete_of (e : event) : list jsstring :=
  match git_args e with
  | Some [a; b; branch] =>
      if JS.eqb a (str "branch") && JS.eqb b (str "-D") then [branch] else []
  | _ => []
  end.

(** The branch a force-delete confirmation asks about. *)
Definition confirm_of (e : event) : list jsstring :=
  match e with
  | Called c _ =>
      match c with
      | PromptConfirm branch => [branch]
      | _ => []
      end
  | Printed _ _ => []
  end.

(** The branches [git branch -d] was invoked on, in order. *)
Definition safe_deletes (tr : list event) : list jsstring :=
  flat_map safe_delete_of tr.

(** The branches [git branch -D] was invoked on, in order. *)
Definition force_deletes (tr : list event) : list jsstring :=
  flat_map force_delete_of tr.

(** The branches the force-delete confirmation was asked for, in order. *)
Definition confirm_prompts (tr : list event) : list jsstring :=
  flat_map confirm_of tr.

Definition is_prompt (e : event) : bool :=
  match e with
  | Called c _ =>
      match c with
      | PromptCheckbox _ => true
      | PromptConfirm _ => true
      | _ => false
      end
  | Printed _ _ => false
  end.

(** The branch of a "[Dry Run] Would delete" line. *)
Definition simulated_of (e : event) : list jsstring :=
  match e with
  | Printed Log (MsgWouldDelete branch) => [branch]
  | _ => []
  end.

(** The branches of the "[Dry Run] Would delete" lines, in order. *)
Definition simulated_deletes (tr : list event) : list jsstring :=
  flat_map simulated_of tr.

Definition is_dry_run_notice (e : event) : bool :=
  match e with
  | Printed Log MsgDryRun => true
  | _ => false
  end.

(** Anything written with [console.error]. *)
Definition is_diagnostic (e : event) : bool :=
  match e with
  | Printed Error _ => true
  | _ => false
  end.

(** Whether a non-forcing delete failed for unmerged work. *)
Definition unmerged_failure (r : error + jsstring) : bool :=
  match r with
  | inl err => includes not_fully_merged (message err)
  | inr _ => false
  end.

(** The branch of a [git branch -d <branch>] invocation that failed for
    unmerged work. *)
Definition unmerged_failure_of (e : event) : list jsstring :=
  match e with
  | Called c x =>
      match c in call X return X -> list jsstring with
      | ExecFileSync file args _ =>
          fun r =>
            match args with
            | [a; b; branch] =>
                if JS.eqb file git && JS.eqb a (str "branch")
                   && JS.eqb b (str "-d") && unmerged_failure r
                then [branch] else []
            | _ => []
            end
      | _ => fun _ => []
      end x
  | Printed _ _ => []
  end.

(** The branches whose non-forcing delete failed for unmerged work, in
    order. *)
Definition unmerged_failures (tr : list event) : list jsstring :=
  flat_map unmerged_failure_of tr.

(** ** The configuration file, as the environment presents it *)

Inductive config_reading : Type :=
| ConfigAbsent
| ConfigUnreadable (e : error)
| ConfigUnparsable (e : error)
| ConfigParsed (v : json).

(** What asking for the file, reading it and parsing it gives, from the
    state [w] on. *)
Definition read_config {W : Type} (h : env W) (w : W) : config_reading :=
  let '(present, w1) := h _ (ExistsSync GitCleanup.configPath) w in
  if (present : bool) then
    let '(file, w2) := h _ (ReadFileSync GitCleanup.configPath) w1 in
    match file with
    | inl e => ConfigUnreadable e
    | inr text =>
        let '(parsed, _) := h _ (JSONParse text) w2 in
        match parsed with
        | inl e => ConfigUnparsable e
        | inr v => ConfigParsed v
        end
    end
  else ConfigAbsent.

(** "structurally valid (an object with an array-valued field)": the
    array of the [protectedBranches] field, when there is one. *)
Definition valid_protected_field (c : config_reading) : option (list json) :=
  match c with
  | ConfigParsed (JObject props) =>
      match lookup (str "protectedBranches") props with
      | Some (JArray items) => Some items
      | _ => None
      end
  | _ => None
  end.

(** The read or parse error of a reading, if it is one. *)
Definition config_error (c : config_reading) : option error :=
  match c with
  | ConfigUnreadable e => Some e
  | ConfigUnparsable e => Some e
  | _ => None
  end.

(** ** A small environment to run the scripts in *)

Module Sample.

(** A repository and a user: the local branches (with whether [git branch
    -d] accepts to delete them), what the commands answer, the
    configuration file, and the user's answers. *)
Record state : Type := mkState {
  branches : list (jsstring * bool);
  inside_work_tree : bool;
  fetch_works : bool;
  status : error + jsstring;
  config_file : option jsstring;
  config_value : error + json;
  chosen : error + list jsstring;
  confirmations : list (error + bool)
}.

Definition listing (w : state) : list jsstring := map fst (branches w).

Fixpoint find_branch (name : jsstring) (bs : list (jsstring * bool)) : option bool :=
  match bs with
  | [] => None
  | (n, merged) :: rest => if JS.eqb n name then Some merged else find_branch name rest
  end.

Definition remove_branch (name : jsstring) (w : state) : state :=
  mkState (filter (fun b => negb (JS.eqb (fst b) name)) (branches w))
    (inside_work_tree w) (fetch_works w) (status w) (config_file w)
    (config_value w) (chosen w) (confirmations w).

Definition next_confirmation (w : state) : state :=
  mkState (branches w) (inside_work_tree w) (fetch_works w) (status w)
    (config_file w) (config_value w) (chosen w) (tl (confirmations w)).

Definition failed (text : string) : error := mkError (str text) (Some (str text)).

Definition exec_git (args : list jsstring) (w : state) : (error + jsstring) * state :=
  match args with
  | [a; b] =>
      if JS.eqb a (str "rev-parse") then
        if inside_work_tree w then (inr (str "true"), w)
        else (inl (failed "fatal: not a git repository"), w)
      else if JS.eqb a (str "fetch") then
        if fetch_works w then (inr [], w)
        else (inl (mkError (str "Command failed: git fetch -p") None), w)
      else if JS.eqb b (str "-vv") then (status w, w)
      else (inl (failed "usage: git"), w)
  | [a; b; name] =>
      if JS.eqb b (str "-d") then
        match find_branch name (branches w) with
        | Some true => (inr (str "Deleted branch"), remove_branch name w)
        | Some false => (inl (failed "error: the branch is not fully merged."), w)
        | None => (inl (failed "error: branch not found."), w)
        end
      else if JS.eqb b (str "-D") then
        match find_branch name (branches w) with
        | Some _ => (inr (str "Deleted branch"), remove_branch name w)
        | None => (inl (failed "error: branch not found."), w)
        end
      else (inl (failed "usage: git"), w)
  | _ => (inl (failed "usage: git"), w)
  end.

Definition answer : env state :=
  fun X (c : call X) (w : state) =>
    match c in call X return X * state with
    | Import _ => (inr tt, w)
    | ExecFileSync _ args _ => exec_git args w
    | ExistsSync _ =>
        (match config_file w with Some _ => true | None => false end, w)
    | ReadFileSync _ =>
        (match config_file w with
         | Some text => inr text
         | None => inl (failed "ENOENT: no such file or directory")
         end, w)
    | JSONParse _ => (config_value w, w)
    | PromptCheckbox _ => (chosen w, w)
    | PromptConfirm _ =>
        (match confirmations w with
         | a :: _ => a
         | [] => inr false
         end, next_confirmation w)
    end.

(** The same environment with a user who answers "no" to every
    confirmation. *)
Definition decline_all : env state :=
  fun X (c : call X) (w : state) =>
    match c in call X return X * state with
    | PromptConfirm _ => (inr false, w)
    | c' => answer _ c' w
    end.

(** Two gone branches, the first with unmerged work; the user picks both
    and declines to force. *)
Definition two_gone : state :=
  mkState [(str "feature-y", false); (str "feature-x", true); (str "main", true)]
    true true
    (inr (str "  feature-y 1a2b3c4 [origin/feature-y: gone] wip" ++ [LF]
          ++ str "  feature-x 5d6e7f8 [origin/feature-x: gone] done" ++ [LF]
          ++ str "* main 9a8b7c6 [origin/main] init"))
    None (inl (failed "Unexpected end of JSON input"))
    (inr [str "feature-y"; str "feature-x"])
    [inr false].

(** The same, with a confirmation prompt that rejects (the prompt was
    closed). *)
Definition prompt_closed : state :=
  mkState (branches two_gone) true true (status two_gone) None
    (config_value two_gone) (chosen two_gone)
    [inl (mkError (str "User force closed the prompt") None)].

(** The same repository when [git branch -vv] fails. *)
Definition listing_fails : state :=
  mkState (branches two_gone) true true
    (inl (failed "fatal: unable to read the branch list"))
    None (config_value two_gone) (chosen two_gone) [].

(** A repository in which only [main] has lost its upstream. *)
Definition only_main_gone : state :=
  mkState [(str "main", true)] true true
    (inr (str "  main 9a8b7c6 [origin/main: gone] init"))
    None (config_value two_gone) (inr []) [].

Definition quoted (s : string) : jsstring := [34] ++ str s ++ [34].

(** A configuration file that protects [feature-x] only. *)
Definition with_config : state :=
  mkState (branches two_gone) true true (status two_gone)
    (Some (str "{" ++ quoted "protectedBranches" ++ str ": ["
           ++ quoted "feature-x" ++ str "]}"))
    (inr (JObject [(str "protectedBranches", JArray [JString (str "feature-x")])]))
    (chosen two_gone) [inr false].

End Sample.

(** The failure isolation of the loop, read as covering every error: in
    every environment the loop gets to [git branch -d] for every selected
    branch, in order. *)
Definition processes_every_branch (body : jsstring -> prog unit) : Prop :=
  forall (W : Type) (h : env W) (selection : list jsstring) (w : W),
    safe_deletes (trace (run h (for_of selection body) w)) = selection.

(** The events of a turn of the loop that ends with a declined
    confirmation. *)
Definition declined_turn (branch : jsstring) (err : error) : list event :=
  [Called (ExecFileSync git (delete_args branch) NoOptions) (inl err);
   Printed Warn (MsgUnmerged branch);
   Called (PromptConfirm branch) (inr false);
   Printed Log (MsgSkipped branch)].

(** Neither a prompt nor a branch removal. *)
Definition harmless (e : event) : bool :=
  negb (is_prompt e) && negb (mutating_delete e).

(** A command line with the dry-run flag. *)
Definition dry_run_argv : list jsstring :=
  [str "node"; str "git-cleanup.js"; str "--dry-run"].

(** ** Further observations *)

Definition is_string (v : json) : bool :=
  match v with
  | JString _ => true
  | _ => false
  end.

(** Only white space (indentation, a trailing carriage return, ...). *)
Definition all_white_space (s : jsstring) : bool := forallb is_white_space s.

(** What a candidate name looks like: it is not empty and holds neither a
    space nor a line feed. *)
Definition well_formed_name (b : jsstring) : Prop :=
  b <> [] /\ ~ In SPACE b /\ ~ In LF b.

(** A listing line indented and ended the way a CRLF terminal would. *)
Definition crlf_line : jsstring :=
  str "  feature-x 5d6e7f8 [origin/feature-x: gone] done".

Definition git_call_of (e : event) : list (list jsstring) :=
  match git_args e with
  | Some args => [args]
  | None => []
  end.

(** The argument lists of the [git] commands run, in order. *)
Definition git_calls (tr : list event) : list (list jsstring) :=
  flat_map git_call_of tr.

(** The branch of a force-delete confirmation answered "yes". *)
Definition confirmed_of (e : event) : list jsstring :=
  match e with
  | Called c x =>
      match c in call X return X -> list jsstring with
      | PromptConfirm branch =>
          fun r => match r with
                   | inr true => [branch]
                   | _ => []
                   end
      | _ => fun _ => []
      end x
  | Printed _ _ => []
  end.

(** The branches whose force delete the user confirmed, in order. *)
Definition confirmed (tr : list event) : list jsstring :=
  flat_map confirmed_of tr.

Definition checkbox_of (e : event) : list (list jsstring) :=
  match e with
  | Called c _ =>
      match c with
      | PromptCheckbox choices => [choices]
      | _ => []
      end
  | Printed _ _ => []
  end.

(** The choice lists of the selection prompts shown, in order. *)
Definition selections_offered (tr : list event) : list (list jsstring) :=
  flat_map checkbox_of tr.

(** [git branch -d <branch>] or [git branch -D <branch>]. *)
Definition is_delete_args (args : list jsstring) : bool :=
  match args with
  | [a; b; _] =>
      JS.eqb a (str "branch") && (JS.eqb b (str "-d") || JS.eqb b (str "-D"))
  | _ => false
  end.

(** The three lines a run that is not cut short ends with: nothing to do,
    cancelled, complete. *)
Definition is_closing_line (e : event) : bool :=
  match e with
  | Printed Log MsgNothingToDo => true
  | Printed Log MsgCancelled => true
  | Printed Log MsgComplete => true
  | _ => false
  end.

(** The last event of a trace. *)
Definition last_event (tr : list event) : event :=
  last tr (Printed Log MsgBlank).

(** The commands that precede any deletion. *)
Definition preparation : list (list jsstring) :=
  [rev_parse_args; fetch_args; branch_vv_args].

Module Sample2.

(** The sample repository seen from outside a work tree. *)
Definition not_a_repository : Sample.state :=
  Sample.mkState [] false true (Sample.status Sample.two_gone) None
    (Sample.config_value Sample.two_gone) (inr []) [].

(** The sample repository with an unreachable remote. *)
Definition fetch_fails : Sample.state :=
  Sample.mkState (Sample.branches Sample.two_gone) true false
    (Sample.status Sample.two_gone) None
    (Sample.config_value Sample.two_gone) (Sample.chosen Sample.two_gone) [].

(** The sample repository with a user who ticks nothing. *)
Definition nothing_chosen : Sample.state :=
  Sample.mkState (Sample.branches Sample.two_gone) true true
    (Sample.status Sample.two_gone) None
    (Sample.config_value Sample.two_gone) (inr []) [].

(** What [git branch -vv] prints in the sample repository. *)
Definition two_gone_text : jsstring :=
  str "  feature-y 1a2b3c4 [origin/feature-y: gone] wip" ++ [LF]
  ++ str "  feature-x 5d6e7f8 [origin/feature-x: gone] done" ++ [LF]
  ++ str "* main 9a8b7c6 [origin/main] init".

End Sample2.

(** The status line of the configuration lookup. *)
Definition status_line_of (e : event) : list notice :=
  match e with
  | Printed Log MsgLoadedConfig => [MsgLoadedConfig]
  | Printed Log MsgUsingDefaults => [MsgUsingDefaults]
  | Printed Log MsgFallingBack => [MsgFallingBack]
  | _ => []
  end.

(** The readings on which the lookup throws inside its [try]: the file
    cannot be read or parsed, or it parses to [null]. *)
Definition config_throws (c : config_reading) : bool :=
  match c with
  | ConfigUnreadable _ => true
  | ConfigUnparsable _ => true
  | ConfigParsed JNull => true
  | _ => false
  end.

(** What happens to a branch in the loop, and what the loop says of it. *)
Inductive happening : Type :=
| Deleted (branch : jsstring)
| Unmerged (branch : jsstring)
| DeleteFailed (branch : jsstring)
| Declined (branch : jsstring)
| ForceDeleted (branch : jsstring)
| ForceDeleteFailed (branch : jsstring).

(** What a call of the loop and its answer amount to. *)
Definition happened_of (e : event) : list happening :=
  match e with
  | Called c x =>
      match c in call X return X -> list happening with
      | ExecFileSync file args _ =>
          fun r =>
            match args with
            | [a; b; branch] =>
                if JS.eqb file git && JS.eqb a (str "branch") then
                  if JS.eqb b (str "-d") then
                    match r with
                    | inr _ => [Deleted branch]
                    | inl err =>
                        if includes not_fully_merged (message err)
                        then [Unmerged branch] else [DeleteFailed branch]
                    end
                  else if JS.eqb b (str "-D") then
                    match r with
                    | inr _ => [ForceDeleted branch]
                    | inl _ => [ForceDeleteFailed branch]
                    end
                  else []
                else []
            | _ => []
            end
      | PromptConfirm branch =>
          fun r => match r with
                   | inr false => [Declined branch]
                   | _ => []
                   end
      | _ => fun _ => []
      end x
  | Printed _ _ => []
  end.

(** What a printed line of the loop reports. *)
Definition reported_of (e : event) : list happening :=
  match e with
  | Printed Log (MsgDeleted branch) => [Deleted branch]
  | Printed Warn (MsgUnmerged branch) => [Unmerged branch]
  | Printed Error (MsgDeleteFailed branch _) => [DeleteFailed branch]
  | Printed Log (MsgSkipped branch) => [Declined branch]
  | Printed Log (MsgForceDeleted branch) => [ForceDeleted branch]
  | Printed Error (MsgForceDeleteFailed branch _) => [ForceDeleteFailed branch]
  | _ => []
  end.

Definition happened (tr : list event) : list happening := flat_map happened_of tr.
Definition reported (tr : list event) : list happening := flat_map reported_of tr.

(** * Properties *)

(** ** Strings *)

Lemma eqb_eq (s t : jsstring) : JS.eqb s t = true <-> s = t.
Proof.
  revert t; induction s as [|a s IH]; intros [|b t]; simpl; split;
    try congruence; try reflexivity.
  - intros H. apply andb_true_iff in H as [Hab Hst].
    apply N.eqb_eq in Hab. apply IH in Hst. congruence.
  - intros H. injection H as -> ->.
    rewrite N.eqb_refl. simpl. now apply IH.
Qed.

Lemma eqb_refl (s : jsstring) : JS.eqb s s = true.
Proof. now apply eqb_eq. Qed.

Lemma eqb_neq (s t : jsstring) : JS.eqb s t = false <-> s <> t.
Proof.
  split.
  - intros H E. apply eqb_eq in E. congruence.
  - intros H. destruct (JS.eqb s t) eqn:E; [|reflexivity].
    apply eqb_eq in E. contradiction.
Qed.

Lemma split_not_nil (sep : N) (s : jsstring) : split sep s <> [].
Proof.
  destruct s as [|c s]; simpl; [discriminate|].
  destruct (c =? sep); [discriminate|].
  destruct (split sep s); discriminate.
Qed.

(** The first piece of a split is what precedes the first separator. *)
Lemma first_split (sep : N) (s : jsstring) :
  first (split sep s) = take_while (fun c => negb (c =? sep)) s.
Proof.
  induction s as [|c s IH]; simpl; [reflexivity|].
  destruct (c =? sep); simpl; [reflexivity|].
  destruct (split sep s) as [|t ts] eqn:E; simpl in *.
  - now rewrite <- IH.
  - now rewrite IH.
Qed.

(** Splitting loses nothing: joining the pieces with the separator gives
    the text back, and no piece holds a separator. *)
Lemma join_split (sep : N) (s : jsstring) : join sep (split sep s) = s.
Proof.
  induction s as [|c s IH]; [reflexivity|].
  simpl. destruct (c =? sep) eqn:E.
  - apply N.eqb_eq in E. subst c.
    pose proof (split_not_nil sep s) as Hn.
    simpl. destruct (split sep s) as [|t ts]; [contradiction|].
    now rewrite IH.
  - pose proof (split_not_nil sep s) as Hn.
    destruct (split sep s) as [|t ts]; [contradiction|].
    simpl in *. destruct ts; simpl in *; now rewrite IH.
Qed.

Lemma split_pieces (sep : N) (s piece : jsstring) :
  In piece (split sep s) -> ~ In sep piece.
Proof.
  revert piece; induction s as [|c s IH]; simpl; intros piece H.
  - destruct H as [<-|[]]. intros [].
  - destruct (c =? sep) eqn:E.
    + destruct H as [<-|H]; [intros []|now apply IH].
    + destruct (split sep s) as [|t ts].
      * destruct H as [<-|[]]. intros [H|[]]. subst. now rewrite N.eqb_refl in E.
      * destruct H as [<-|H].
        -- intros [H|H]; [subst; now rewrite N.eqb_refl in E|].
           apply (IH t); [now left|assumption].
        -- apply IH. now right.
Qed.

Lemma split_one_line (sep : N) (s : jsstring) :
  ~ In sep s -> split sep s = [s].
Proof.
  induction s as [|c s IH]; simpl; intros H; [reflexivity|].
  destruct (c =? sep) eqn:E.
  - apply N.eqb_eq in E. exfalso. apply H. now left.
  - rewrite IH; [reflexivity|]. intros Hin. apply H. now right.
Qed.

Lemma startsWith_inv (p s : jsstring) :
  startsWith p s = true -> exists post, s = p ++ post.
Proof.
  revert s; induction p as [|a p IH]; intros s H.
  - now exists s.
  - destruct s as [|b s]; simpl in H; [discriminate|].
    apply andb_true_iff in H as [Hab H]. apply N.eqb_eq in Hab. subst b.
    destruct (IH _ H) as [post ->]. now exists post.
Qed.

Lemma startsWith_app (p post : jsstring) : startsWith p (p ++ post) = true.
Proof.
  induction p as [|a p IH]; simpl; [reflexivity|].
  now rewrite N.eqb_refl, IH.
Qed.

(** [includes] is the substring test. *)
Lemma includes_inv (sub s : jsstring) :
  includes sub s = true -> exists pre post, s = pre ++ sub ++ post.
Proof.
  induction s as [|c s IH]; simpl; intros H.
  - rewrite orb_false_r in H. destruct (startsWith_inv _ _ H) as [post E].
    now exists [], post.
  - apply orb_true_iff in H as [H|H].
    + destruct (startsWith_inv _ _ H) as [post E]. now exists [], post.
    + destruct (IH H) as (pre & post & ->). now exists (c :: pre), post.
Qed.

Lemma includes_app (sub pre post : jsstring) :
  includes sub (pre ++ sub ++ post) = true.
Proof.
  induction pre as [|c pre IH]; simpl.
  - destruct (sub ++ post) eqn:E; simpl; rewrite <- E, startsWith_app; reflexivity.
  - rewrite IH. apply orb_true_r.
Qed.

Lemma includes_iff (sub s : jsstring) :
  includes sub s = true <-> exists pre post, s = pre ++ sub ++ post.
Proof.
  split; [apply includes_inv|].
  intros (pre & post & ->). apply includes_app.
Qed.

Lemma drop_while_stop (p : N -> bool) (pre : jsstring) (c : N) (r : jsstring) :
  p c = false -> drop_while p (pre ++ c :: r) = drop_while p pre ++ c :: r.
Proof.
  intros Hc. induction pre as [|a pre IH]; simpl.
  - now rewrite Hc.
  - destruct (p a); [assumption|reflexivity].
Qed.

Lemma take_while_stop (p : N -> bool) (u : jsstring) (c : N) (r : jsstring) :
  p c = false -> take_while p (u ++ c :: r) = take_while p u.
Proof.
  intros Hc. induction u as [|a u IH]; simpl.
  - now rewrite Hc.
  - destruct (p a); [now rewrite IH|reflexivity].
Qed.

(** Trimming the end never goes past a code unit that is not white space. *)
Lemma trimEnd_keep (x : jsstring) (c : N) (y : jsstring) :
  is_white_space c = false -> trimEnd (x ++ c :: y) = x ++ c :: trimEnd y.
Proof.
  intros Hc. unfold trimEnd.
  rewrite rev_app_distr. simpl rev. rewrite <- app_assoc. simpl.
  rewrite drop_while_stop by assumption.
  rewrite rev_app_distr. simpl. rewrite rev_involutive.
  now rewrite <- app_assoc.
Qed.

(** ** The branch classifier *)

Lemma gone_marker_units : gone_marker = [58; 32; 103; 111; 110; 101; 93].
Proof. reflexivity. Qed.

(** On a line that holds the marker, [line.trim().split(' ')[0]] is the
    run of code units between the leading white space and the first
    U+0020: the marker itself holds a space that the trimmed line keeps,
    so trimming the end never shortens the first token. *)
Lemma branch_of_gone_line (line : jsstring) :
  includes gone_marker line = true ->
  branch_of_line line = Spec.first_space_token line.
Proof.
  intros H. apply includes_inv in H as (pre & post & ->).
  rewrite gone_marker_units.
  unfold branch_of_line, Spec.first_space_token, trim, trimStart.
  rewrite first_split. simpl app.
  rewrite (drop_while_stop is_white_space pre 58) by reflexivity.
  set (u := drop_while is_white_space pre).
  replace (u ++ 58 :: 32 :: 103 :: 111 :: 110 :: 101 :: 93 :: post)
    with ((u ++ [58; 32; 103; 111; 110; 101]) ++ 93 :: post)
    by (rewrite <- app_assoc; reflexivity).
  rewrite trimEnd_keep by reflexivity.
  replace ((u ++ [58; 32; 103; 111; 110; 101]) ++ 93 :: trimEnd post)
    with ((u ++ [58]) ++ 32 :: [103; 111; 110; 101] ++ 93 :: trimEnd post)
    by (repeat rewrite <- app_assoc; reflexivity).
  replace ((u ++ [58; 32; 103; 111; 110; 101]) ++ 93 :: post)
    with ((u ++ [58]) ++ 32 :: [103; 111; 110; 101] ++ 93 :: post)
    by (repeat rewrite <- app_assoc; reflexivity).
  unfold SPACE.
  rewrite (take_while_stop (fun c => negb (c =? 32)) (u ++ [58]) 32
             ([103; 111; 110; 101] ++ 93 :: trimEnd post)) by reflexivity.
  rewrite (take_while_stop (fun c => negb (c =? 32)) (u ++ [58]) 32
             ([103; 111; 110; 101] ++ 93 :: post)) by reflexivity.
  reflexivity.
Qed.

Lemma map_filter_ext {A B : Type} (p : A -> bool) (f g : A -> B) (l : list A) :
  (forall x, p x = true -> f x = g x) ->
  map f (filter p l) = map g (filter p l).
Proof.
  intros H. apply map_ext_in. intros x Hx.
  apply filter_In in Hx as [_ Hx]. now apply H.
Qed.

Lemma classifier_by_space (text : jsstring) (protectedSet : list json) :
  GitCleanup.goneBranches text protectedSet
  = Spec.candidates_by_space text protectedSet.
Proof.
  unfold GitCleanup.goneBranches, Spec.candidates_by_space,
    Spec.candidates_with, Spec.lines.
  f_equal. apply map_filter_ext. intros line. apply branch_of_gone_line.
Qed.

Lemma clean_is_cleanup (text : jsstring) :
  GitClean.goneBranches text
  = GitCleanup.goneBranches text GitClean.protectedBranches.
Proof. reflexivity. Qed.

(** C1 (as the claim words it, refuted): on a status line whose branch
    column holds a tab, both classifiers keep the tab and what follows it
    in the candidate name, where the first whitespace-delimited token stops
    at the tab. *)
Lemma C1_whitespace_token_counterexample :
  GitClean.goneBranches tabbed_line = [str "a" ++ [9] ++ str "b"]
  /\ GitCleanup.goneBranches tabbed_line GitCleanup.defaults
     = [str "a" ++ [9] ++ str "b"]
  /\ Spec.candidates tabbed_line GitClean.protectedBranches = [str "a"]
  /\ Spec.candidates tabbed_line GitCleanup.defaults = [str "a"]
  /\ GitClean.goneBranches tabbed_line
     <> Spec.candidates tabbed_line GitClean.protectedBranches
  /\ GitCleanup.goneBranches tabbed_line GitCleanup.defaults
     <> Spec.candidates tabbed_line GitCleanup.defaults.
Proof.
  repeat split; try (vm_compute; reflexivity); vm_compute; discriminate.
Qed.

(** C1 (amended): for every status-output text and every Protected Branch
    Set, the classifier of either script produces exactly the list obtained
    by splitting the text at line feeds, keeping the lines that contain
    [: gone]], taking from each kept line the code units between its leading
    white space and its first space (U+0020), and removing the names that
    are in the Protected Branch Set; order and repetitions are those of the
    lines. *)
Theorem C1_classifier_first_space_token :
  forall text : jsstring,
    GitClean.goneBranches text
    = Spec.candidates_by_space text GitClean.protectedBranches
    /\ forall protectedSet : list json,
         GitCleanup.goneBranches text protectedSet
         = Spec.candidates_by_space text protectedSet.
Proof.
  intros text. split.
  - rewrite clean_is_cleanup. apply classifier_by_space.
  - intros protectedSet. apply classifier_by_space.
Qed.

(** The two readings of "token" agree as soon as the first token of every
    kept line holds no white space (no tab, no no-break space, ...). *)
Lemma take_while_agree (p q : N -> bool) (s : jsstring) :
  (forall c, In c (take_while p s) -> q c = true) ->
  (forall c, q c = true -> p c = true) ->
  take_while p s = take_while q s.
Proof.
  intros Hq Hqp. induction s as [|c s IH]; simpl in *; [reflexivity|].
  destruct (p c) eqn:Ep.
  - rewrite (Hq c) by (simpl; now left). f_equal. apply IH.
    intros d Hd. apply Hq. simpl. now right.
  - destruct (q c) eqn:Eq; [|reflexivity].
    apply Hqp in Eq. congruence.
Qed.

Lemma classifier_whitespace_token (text : jsstring) (protectedSet : list json) :
  (forall line, In line (Spec.lines text) ->
     includes gone_marker line = true ->
     forall c, In c (branch_of_line line) -> is_white_space c = false) ->
  GitCleanup.goneBranches text protectedSet = Spec.candidates text protectedSet.
Proof.
  intros H. unfold GitCleanup.goneBranches, Spec.candidates, Spec.candidates_with.
  f_equal. apply map_ext_in. intros line Hin.
  apply filter_In in Hin as [Hin Hg].
  specialize (H line Hin Hg). rewrite branch_of_gone_line in * by assumption.
  unfold Spec.first_space_token, Spec.first_whitespace_token in *.
  apply take_while_agree.
  - intros c Hc. now rewrite (H c Hc).
  - intros c Hc. destruct (c =? SPACE) eqn:E; [|reflexivity].
    apply N.eqb_eq in E. subst c. discriminate.
Qed.

(** C9: a line that holds [: gone]] and whose trimmed form starts with
    ['*'] and a space (the current branch, in [git branch -vv]) yields the
    token ['*'], in both scripts, and that token is in both candidate lists
    (under the built-in protected names). *)
Theorem C9_current_branch_marker_is_taken_as_name :
  forall text line rest : jsstring,
    In line (split LF text) ->
    includes gone_marker line = true ->
    trim line = 42 :: 32 :: rest ->
    branch_of_line line = str "*"
    /\ In (str "*") (GitClean.goneBranches text)
    /\ In (str "*") (GitCleanup.goneBranches text GitCleanup.defaults).
Proof.
  intros text line rest Hin Hgone Htrim.
  assert (Hb : branch_of_line line = str "*").
  { unfold branch_of_line. rewrite Htrim. simpl.
    destruct (split SPACE rest); reflexivity. }
  split; [exact Hb|].
  assert (Htok : In (str "*")
            (map branch_of_line
               (filter (fun l => includes gone_marker l) (split LF text)))).
  { rewrite <- Hb. apply in_map. apply filter_In. now split. }
  split; apply filter_In; (split; [exact Htok|reflexivity]).
Qed.

(** The line of a checked-out branch whose upstream is gone. *)
Lemma C9_witness :
  branch_of_line starred_line = str "*"
  /\ In (str "*") (GitClean.goneBranches starred_line)
  /\ In (str "*") (GitCleanup.goneBranches starred_line GitCleanup.defaults).
Proof.
  apply (C9_current_branch_marker_is_taken_as_name starred_line starred_line
           (str "feature-x 1a2b3c4 [origin/feature-x: gone] msg")).
  - vm_compute. left. reflexivity.
  - vm_compute. reflexivity.
  - vm_compute. reflexivity.
Defined.

(** ** The two built-in protected lists *)

Lemma defaults_extend_clean :
  GitCleanup.defaults
  = GitClean.protectedBranches ++ [JString (str "prod"); JString (str "production")].
Proof. reflexivity. Qed.

Lemma array_includes_defaults (name : jsstring) :
  array_includes GitCleanup.defaults name
  = array_includes GitClean.protectedBranches name
    || (JS.eqb (str "prod") name || JS.eqb (str "production") name).
Proof.
  rewrite defaults_extend_clean. unfold array_includes.
  rewrite existsb_app. f_equal. simpl. now rewrite orb_false_r.
Qed.

(** C10: with the built-in lists, the two classifiers return the same
    candidates exactly on the texts in which no line holding the marker has
    [prod] or [production] as its first token. *)
Theorem C10_classifiers_agree_unless_prod :
  forall text : jsstring,
    GitClean.goneBranches text = GitCleanup.goneBranches text GitCleanup.defaults
    <-> (forall line, In line (split LF text) ->
           includes gone_marker line = true ->
           branch_of_line line <> str "prod"
           /\ branch_of_line line <> str "production").
Proof.
  intros text. unfold GitClean.goneBranches, GitCleanup.goneBranches.
  set (tokens := map branch_of_line
                   (filter (fun line => includes gone_marker line) (split LF text))).
  assert (Htok : forall name, In name tokens <->
            exists line, In line (split LF text)
                         /\ includes gone_marker line = true
                         /\ branch_of_line line = name).
  { intros name. unfold tokens. rewrite in_map_iff. split.
    - intros (line & E & Hin). apply filter_In in Hin as [Hin Hg]. eauto.
    - intros (line & Hin & Hg & E). exists line. split; [exact E|].
      apply filter_In. now split. }
  split.
  - intros Heq line Hin Hg.
    assert (Hname : In (branch_of_line line) tokens) by (apply Htok; eauto).
    split; intros E; rewrite E in Hname.
    + assert (H : In (str "prod")
                    (filter (fun b => negb (array_includes GitClean.protectedBranches b))
                       tokens)) by (apply filter_In; now split).
      rewrite Heq in H. apply filter_In in H as [_ H]. discriminate H.
    + assert (H : In (str "production")
                    (filter (fun b => negb (array_includes GitClean.protectedBranches b))
                       tokens)) by (apply filter_In; now split).
      rewrite Heq in H. apply filter_In in H as [_ H]. discriminate H.
  - intros H. apply filter_ext_in. intros name Hname.
    apply Htok in Hname as (line & Hin & Hg & <-).
    destruct (H line Hin Hg) as [H1 H2].
    rewrite array_includes_defaults.
    assert (E1 : JS.eqb (str "prod") (branch_of_line line) = false)
      by (apply eqb_neq; congruence).
    assert (E2 : JS.eqb (str "production") (branch_of_line line) = false)
      by (apply eqb_neq; congruence).
    rewrite E1, E2, !orb_false_r. reflexivity.
Qed.

(** ** Running scripts *)

Lemma run_bind {W A B : Type} (h : env W) (p : prog A) (f : A -> prog B) (w : W) :
  run h (bind_prog p f) w =
  match outcome_of (run h p w) with
  | Returned a =>
      let r' := run h (f a) (world (run h p w)) in
      mkResult (trace (run h p w) ++ trace r') (world r')
               (pending (run h p w) ++ pending r') (outcome_of r')
  | Threw e =>
      mkResult (trace (run h p w)) (world (run h p w)) (pending (run h p w)) (Threw e)
  | Exited code =>
      mkResult (trace (run h p w)) (world (run h p w)) (pending (run h p w)) (Exited code)
  end.
Proof.
  revert B f w. induction p as [A a|A e|A code|A c m k IH|A X c k IH|A job _ k IH];
    intros B f w; simpl.
  - destruct (run h (f a) w); reflexivity.
  - reflexivity.
  - reflexivity.
  - rewrite IH. destruct (outcome_of (run h k w)); reflexivity.
  - destruct (h X c w) as [x w1]. rewrite IH. simpl.
    destruct (outcome_of (run h (k x) w1)); reflexivity.
  - rewrite IH. destruct (outcome_of (run h k w)); reflexivity.
Qed.

Lemma run_try_catch {W A : Type} (h : env W) (p : prog A)
    (handler : error -> prog A) (w : W) :
  run h (try_catch p handler) w =
  match outcome_of (run h p w) with
  | Returned a =>
      mkResult (trace (run h p w)) (world (run h p w)) (pending (run h p w)) (Returned a)
  | Threw e =>
      let r' := run h (handler e) (world (run h p w)) in
      mkResult (trace (run h p w) ++ trace r') (world r')
               (pending (run h p w) ++ pending r') (outcome_of r')
  | Exited code =>
      mkResult (trace (run h p w)) (world (run h p w)) (pending (run h p w)) (Exited code)
  end.
Proof.
  revert handler w.
  induction p as [A a|A e|A code|A c m k IH|A X c k IH|A job _ k IH];
    intros handler w; simpl.
  - reflexivity.
  - destruct (run h (handler e) w); reflexivity.
  - reflexivity.
  - rewrite IH. destruct (outcome_of (run h k w)); reflexivity.
  - destruct (h X c w) as [x w1]. rewrite IH. simpl.
    destruct (outcome_of (run h (k x) w1)); reflexivity.
  - rewrite IH. destruct (outcome_of (run h k w)); reflexivity.
Qed.

(** ** The configuration lookup *)

(** Destructs the answer of the next call the script makes. *)
Ltac next_answer h :=
  match goal with
  | |- context [h ?X ?c ?w] =>
      let x := fresh "x" in
      let w' := fresh "w" in
      destruct (h X c w) as [x w']; simpl
  end.

(** An array is truthy, so the guard of line 29 is [Array.isArray] alone. *)
Lemma truthy_array (v : json) : truthy v && isArray v = isArray v.
Proof. destruct v; simpl isArray; rewrite ?andb_false_r; reflexivity. Qed.

(** C8: [getProtectedBranches] always returns: the array of the file's
    [protectedBranches] field when the file exists, reads, parses to an
    object and that field is an array; the built-in list in every other
    case.  A read or parse error is caught, and reported by the two lines
    that end the trace. *)
Theorem C8_protected_branches_from_config_or_defaults :
  forall (W : Type) (h : env W) (w : W),
    let r := run h GitCleanup.getProtectedBranches w in
    outcome_of r
    = Returned (match valid_protected_field (read_config h w) with
                | Some items => items
                | None => GitCleanup.defaults
                end)
    /\ match config_error (read_config h w) with
       | Some e =>
           exists before,
             trace r = before ++ [Printed Error (MsgConfigError (message e));
                                  Printed Log MsgFallingBack]
       | None => True
       end.
Proof.
  intros W h w. unfold read_config, GitCleanup.getProtectedBranches. simpl.
  next_answer h. destruct x; simpl; [|now split].
  next_answer h. destruct x as [e|text]; simpl.
  { split; [reflexivity|]. eexists [_; _]. reflexivity. }
  next_answer h. destruct x as [e|v]; simpl.
  { split; [reflexivity|]. eexists [_; _; _]. reflexivity. }
  split; [|exact I].
  destruct v as [|b|bits|s|items|props]; simpl; try reflexivity.
  destruct (lookup (str "protectedBranches") props) as [field|]; simpl;
    [|reflexivity].
  rewrite truthy_array. destruct field; reflexivity.
Qed.


(** ** One turn of the deletion loop *)

(** C5: when [git branch -d] fails with "not fully merged" and the user
    declines the confirmation, the turn consists of that failed delete, the
    warning, the prompt and the "Skipped" line, and nothing else: no forcing
    delete, no second delete; the environment is left as the failed delete
    and the prompt left it, so a listing that neither of them changes still
    shows the branch. *)
Theorem C5_declined_force_delete_makes_no_further_call :
  forall (W : Type) (h : env W) (listing : W -> list jsstring)
         (w w1 w2 : W) (branch : jsstring) (err : error),
    h _ (ExecFileSync git (delete_args branch) NoOptions) w = (inl err, w1) ->
    includes not_fully_merged (message err) = true ->
    h _ (PromptConfirm branch) w1 = (inr false, w2) ->
    run h (GitClean.delete_branch branch) w
    = mkResult (declined_turn branch err) w2 [] (Returned tt)
    /\ run h (GitCleanup.delete_branch false branch) w
       = mkResult (declined_turn branch err) w2 [] (Returned tt)
    /\ force_deletes (declined_turn branch err) = []
    /\ safe_deletes (declined_turn branch err) = [branch]
    /\ (listing w1 = listing w -> listing w2 = listing w1 ->
        In branch (listing w) -> In branch (listing w2)).
Proof.
  intros W h listing w w1 w2 branch err Hdel Hmsg Hask.
  unfold GitClean.delete_branch, GitCleanup.delete_branch. simpl.
  rewrite Hdel. simpl. rewrite Hmsg. simpl. rewrite Hask. simpl.
  repeat split; try reflexivity.
  intros E1 E2. now rewrite E2, E1.
Qed.

(** In the sample repository, [feature-y] is unmerged and the user declines. *)
Lemma C5_witness :
  force_deletes
    (trace (run Sample.answer (GitClean.delete_branch (str "feature-y")) Sample.two_gone))
  = []
  /\ force_deletes
       (trace (run Sample.answer (GitCleanup.delete_branch false (str "feature-y"))
                 Sample.two_gone))
     = []
  /\ In (str "feature-y")
        (Sample.listing
           (world (run Sample.answer (GitClean.delete_branch (str "feature-y"))
                     Sample.two_gone))).
Proof.
  destruct (C5_declined_force_delete_makes_no_further_call
              Sample.state Sample.answer Sample.listing
              Sample.two_gone Sample.two_gone
              (Sample.next_confirmation Sample.two_gone)
              (str "feature-y")
              (Sample.failed "error: the branch is not fully merged."))
    as (R1 & R2 & F & _ & L).
  - vm_compute. reflexivity.
  - vm_compute. reflexivity.
  - vm_compute. reflexivity.
  - rewrite R1, R2. simpl trace. simpl world.
    split; [exact F|]. split; [exact F|].
    apply L; [reflexivity|reflexivity|].
    vm_compute. left. reflexivity.
Defined.

(** ** The deletion loop *)

Section Loop.

Context {W : Type} (h : env W).

(** A loop whose every turn returns leaves, for an observation made event
    by event, the list of what its turns leave. *)
Lemma for_of_returns (body : jsstring -> prog unit) (f : event -> list jsstring) :
  (forall b w,
      outcome_of (run h (body b) w) = Returned tt
      /\ flat_map f (trace (run h (body b) w)) = [b]) ->
  forall selection w,
    outcome_of (run h (for_of selection body) w) = Returned tt
    /\ flat_map f (trace (run h (for_of selection body) w)) = selection.
Proof.
  intros Hbody. induction selection as [|b rest IH]; intros w; simpl.
  - now split.
  - rewrite run_bind. destruct (Hbody b w) as [Ho Ht]. rewrite Ho. simpl.
    destruct (IH (world (run h (body b) w))) as [Ho' Ht'].
    split; [exact Ho'|]. now rewrite flat_map_app, Ht, Ht'.
Qed.

Lemma for_of_pending (body : jsstring -> prog unit) :
  (forall b w, pending (run h (body b) w) = []) ->
  forall selection w, pending (run h (for_of selection body) w) = [].
Proof.
  intros Hbody. induction selection as [|b rest IH]; intros w; simpl.
  - reflexivity.
  - rewrite run_bind.
    destruct (outcome_of (run h (body b) w)); simpl; rewrite Hbody;
      [apply IH|reflexivity|reflexivity].
Qed.

Lemma clean_turn_pending (b : jsstring) (w : W) :
  pending (run h (GitClean.delete_branch b) w) = [].
Proof.
  unfold GitClean.delete_branch. simpl.
  destruct (h _ (ExecFileSync git (delete_args b) NoOptions) w)
    as [[err|out] w1]; simpl; [|reflexivity].
  destruct (includes not_fully_merged (message err)); simpl; [|reflexivity].
  destruct (h _ (PromptConfirm b) w1) as [[e|[|]] w2]; simpl; try reflexivity.
  destruct (h _ (ExecFileSync git (force_delete_args b) NoOptions) w2)
    as [[e|out] w3]; reflexivity.
Qed.

Lemma cleanup_turn_pending (dry : bool) (b : jsstring) (w : W) :
  pending (run h (GitCleanup.delete_branch dry b) w) = [].
Proof.
  unfold GitCleanup.delete_branch, GitCleanup.print_stderr.
  destruct dry; simpl; [reflexivity|].
  destruct (h _ (ExecFileSync git (delete_args b) NoOptions) w)
    as [[err|out] w1]; simpl; [|reflexivity].
  destruct (includes not_fully_merged (message err)); simpl;
    [|destruct (stderr err); reflexivity].
  destruct (h _ (PromptConfirm b) w1) as [[e|[|]] w2]; simpl; try reflexivity.
  destruct (h _ (ExecFileSync git (force_delete_args b) NoOptions) w2)
    as [[e|out] w3]; simpl; [destruct (stderr e)|]; reflexivity.
Qed.

(** Two observations that agree on every turn agree on the loop, however
    it ends. *)
Lemma for_of_agree (body : jsstring -> prog unit) (f g : event -> list jsstring) :
  (forall b w,
      flat_map f (trace (run h (body b) w)) = flat_map g (trace (run h (body b) w))) ->
  forall selection w,
    flat_map f (trace (run h (for_of selection body) w))
    = flat_map g (trace (run h (for_of selection body) w)).
Proof.
  intros Hbody. induction selection as [|b rest IH]; intros w; simpl.
  - reflexivity.
  - rewrite run_bind.
    destruct (outcome_of (run h (body b) w)); simpl; [|apply Hbody|apply Hbody].
    now rewrite !flat_map_app, Hbody, IH.
Qed.

Lemma unmerged_failures_delete (b : jsstring) (r : error + jsstring)
    (tr : list event) :
  flat_map unmerged_failure_of
    (Called (ExecFileSync git (delete_args b) NoOptions) r :: tr)
  = (if unmerged_failure r then [b] else []) ++ flat_map unmerged_failure_of tr.
Proof. reflexivity. Qed.

Lemma clean_turn_confirms (b : jsstring) (w : W) :
  flat_map confirm_of (trace (run h (GitClean.delete_branch b) w))
  = flat_map unmerged_failure_of (trace (run h (GitClean.delete_branch b) w)).
Proof.
  unfold GitClean.delete_branch. simpl.
  destruct (h _ (ExecFileSync git (delete_args b) NoOptions) w)
    as [[err|out] w1]; simpl trace; rewrite unmerged_failures_delete;
    simpl; [|reflexivity].
  destruct (includes not_fully_merged (message err)); simpl; [|reflexivity].
  destruct (h _ (PromptConfirm b) w1) as [[e|[|]] w2]; simpl; try reflexivity.
  destruct (h _ (ExecFileSync git (force_delete_args b) NoOptions) w2)
    as [[e|out] w3]; reflexivity.
Qed.

Lemma cleanup_turn_confirms (dry : bool) (b : jsstring) (w : W) :
  flat_map confirm_of (trace (run h (GitCleanup.delete_branch dry b) w))
  = flat_map unmerged_failure_of (trace (run h (GitCleanup.delete_branch dry b) w)).
Proof.
  unfold GitCleanup.delete_branch, GitCleanup.print_stderr.
  destruct dry; simpl; [reflexivity|].
  destruct (h _ (ExecFileSync git (delete_args b) NoOptions) w)
    as [[err|out] w1]; simpl trace; rewrite unmerged_failures_delete;
    simpl; [|reflexivity].
  destruct (includes not_fully_merged (message err)); simpl;
    [|destruct (stderr err); reflexivity].
  destruct (h _ (PromptConfirm b) w1) as [[e|[|]] w2]; simpl; try reflexivity.
  destruct (h _ (ExecFileSync git (force_delete_args b) NoOptions) w2)
    as [[e|out] w3]; simpl; [destruct (stderr e)|]; reflexivity.
Qed.

(** A dry run of the loop prints one line per branch and calls nothing. *)
Lemma dry_loop (selection : list jsstring) (w : W) :
  run h (for_of selection (GitCleanup.delete_branch true)) w
  = mkResult (map (fun b => Printed Log (MsgWouldDelete b)) selection) w []
             (Returned tt).
Proof.
  induction selection as [|b rest IH]; simpl; [reflexivity|].
  now rewrite IH.
Qed.

(** When the confirmation prompts answer, a turn returns, having asked
    [git branch -d] for its branch once. *)
Hypothesis prompts_answer :
  forall b w, exists answer : bool, fst (h _ (PromptConfirm b) w) = inr answer.

Lemma clean_turn_returns (b : jsstring) (w : W) :
  outcome_of (run h (GitClean.delete_branch b) w) = Returned tt
  /\ flat_map safe_delete_of (trace (run h (GitClean.delete_branch b) w)) = [b].
Proof.
  unfold GitClean.delete_branch. simpl.
  destruct (h _ (ExecFileSync git (delete_args b) NoOptions) w)
    as [[err|out] w1]; simpl; [|split; reflexivity].
  destruct (includes not_fully_merged (message err)); simpl; [|split; reflexivity].
  destruct (prompts_answer b w1) as [answer Ha].
  destruct (h _ (PromptConfirm b) w1) as [x w2]. simpl in Ha. subst x. simpl.
  destruct answer; simpl; [|split; reflexivity].
  destruct (h _ (ExecFileSync git (force_delete_args b) NoOptions) w2)
    as [[e|out] w3]; split; reflexivity.
Qed.

Lemma cleanup_turn_returns (b : jsstring) (w : W) :
  outcome_of (run h (GitCleanup.delete_branch false b) w) = Returned tt
  /\ flat_map safe_delete_of (trace (run h (GitCleanup.delete_branch false b) w)) = [b].
Proof.
  unfold GitCleanup.delete_branch, GitCleanup.print_stderr. simpl.
  destruct (h _ (ExecFileSync git (delete_args b) NoOptions) w)
    as [[err|out] w1]; simpl; [|split; reflexivity].
  destruct (includes not_fully_merged (message err)); simpl;
    [|destruct (stderr err); split; reflexivity].
  destruct (prompts_answer b w1) as [answer Ha].
  destruct (h _ (PromptConfirm b) w1) as [x w2]. simpl in Ha. subst x. simpl.
  destruct answer; simpl; [|split; reflexivity].
  destruct (h _ (ExecFileSync git (force_delete_args b) NoOptions) w2)
    as [[e|out] w3]; simpl; [destruct (stderr e)|]; split; reflexivity.
Qed.

End Loop.

(** C3: in one turn of the loop, the force-delete confirmation is asked
    exactly once, for the branch at hand, when [git branch -d] fails with a
    message that holds "not fully merged", and is not asked at all when the
    delete succeeds or fails with another message (nor in a dry run, which
    does not call [git branch -d]); so, over the whole loop and however it
    ends, the confirmations asked are, in order, the branches whose
    non-forcing delete failed that way. *)
Theorem C3_confirmation_once_iff_unmerged :
  forall (W : Type) (h : env W) (w : W) (branch : jsstring)
         (selection : list jsstring),
    let deleted := fst (h _ (ExecFileSync git (delete_args branch) NoOptions) w) in
    (confirm_prompts (trace (run h (GitClean.delete_branch branch) w))
     = (if unmerged_failure deleted then [branch] else [])
     /\ confirm_prompts (trace (run h (GitCleanup.delete_branch false branch) w))
        = (if unmerged_failure deleted then [branch] else [])
     /\ confirm_prompts (trace (run h (GitCleanup.delete_branch true branch) w)) = [])
    /\ (confirm_prompts (trace (run h (for_of selection GitClean.delete_branch) w))
        = unmerged_failures (trace (run h (for_of selection GitClean.delete_branch) w))
        /\ forall dry,
             confirm_prompts
               (trace (run h (for_of selection (GitCleanup.delete_branch dry)) w))
             = unmerged_failures
                 (trace (run h (for_of selection (GitCleanup.delete_branch dry)) w))).
Proof.
  intros W h w branch selection. cbv zeta. split.
  - unfold GitClean.delete_branch, GitCleanup.delete_branch, GitCleanup.print_stderr.
    simpl.
    destruct (h _ (ExecFileSync git (delete_args branch) NoOptions) w)
      as [[err|out] w1]; simpl; [|repeat split; reflexivity].
    destruct (includes not_fully_merged (message err)); simpl.
    + destruct (h _ (PromptConfirm branch) w1) as [[e|[|]] w2]; simpl;
        try (repeat split; reflexivity).
      destruct (h _ (ExecFileSync git (force_delete_args branch) NoOptions) w2)
        as [[e|out] w3]; simpl; repeat split; try reflexivity.
      destruct (stderr e); reflexivity.
    + repeat split; try reflexivity. destruct (stderr err); reflexivity.
  - split.
    + apply (for_of_agree h GitClean.delete_branch confirm_of unmerged_failure_of).
      apply clean_turn_confirms.
    + intros dry.
      apply (for_of_agree h (GitCleanup.delete_branch dry) confirm_of
               unmerged_failure_of).
      apply cleanup_turn_confirms.
Qed.

(** C4 (as the claim words it, refuted): an error of the confirmation
    prompt is an error met while a branch is processed, and it ends the
    loop: with the selection [feature-y; feature-x] and a prompt that
    rejects, neither script gets to [feature-x], and both exit with 1. *)
Lemma C4_rejected_prompt_stops_the_loop :
  (~ processes_every_branch GitClean.delete_branch)
  /\ (~ processes_every_branch (GitCleanup.delete_branch false))
  /\ Sample.chosen Sample.prompt_closed = inr [str "feature-y"; str "feature-x"]
  /\ safe_deletes (fst (run_process Sample.answer GitClean.script Sample.prompt_closed))
     = [str "feature-y"]
  /\ snd (run_process Sample.answer GitClean.script Sample.prompt_closed) = 1%Z
  /\ safe_deletes
       (fst (run_process Sample.answer (GitCleanup.script []) Sample.prompt_closed))
     = [str "feature-y"]
  /\ snd (run_process Sample.answer (GitCleanup.script []) Sample.prompt_closed) = 1%Z.
Proof.
  split; [|split].
  - intros H.
    specialize (H Sample.state Sample.answer
                  [str "feature-y"; str "feature-x"] Sample.prompt_closed).
    vm_compute in H. discriminate H.
  - intros H.
    specialize (H Sample.state Sample.answer
                  [str "feature-y"; str "feature-x"] Sample.prompt_closed).
    vm_compute in H. discriminate H.
  - repeat (split; [vm_compute; reflexivity|]). vm_compute. reflexivity.
Qed.

(** C4 (amended): whatever [git branch -d] and [git branch -D] answer
    (success, "not fully merged", any other failure), as long as every
    confirmation prompt is answered, the loop returns normally after it has
    called [git branch -d] once for every branch of the selection, in the
    order of the selection; in a dry run it prints one "Would delete" line
    per branch, in that order. *)
Theorem C4_delete_failures_do_not_stop_the_loop :
  forall (W : Type) (h : env W) (selection : list jsstring) (w : W),
    (forall b w', exists answer : bool, fst (h _ (PromptConfirm b) w') = inr answer) ->
    (outcome_of (run h (for_of selection GitClean.delete_branch) w) = Returned tt
     /\ safe_deletes (trace (run h (for_of selection GitClean.delete_branch) w))
        = selection)
    /\ (outcome_of (run h (for_of selection (GitCleanup.delete_branch false)) w)
        = Returned tt
        /\ safe_deletes
             (trace (run h (for_of selection (GitCleanup.delete_branch false)) w))
           = selection)
    /\ (outcome_of (run h (for_of selection (GitCleanup.delete_branch true)) w)
        = Returned tt
        /\ simulated_deletes
             (trace (run h (for_of selection (GitCleanup.delete_branch true)) w))
           = selection).
Proof.
  intros W h selection w Hans. split; [|split].
  - apply (for_of_returns h GitClean.delete_branch safe_delete_of).
    intros b w'. now apply clean_turn_returns.
  - apply (for_of_returns h (GitCleanup.delete_branch false) safe_delete_of).
    intros b w'. now apply cleanup_turn_returns.
  - rewrite dry_loop. simpl. split; [reflexivity|].
    unfold simulated_deletes. induction selection as [|b rest IH]; simpl;
      [reflexivity|now rewrite IH].
Qed.

(** The sample repository with a user who declines every confirmation. *)
Lemma C4_witness :
  safe_deletes
    (trace (run Sample.decline_all
              (for_of [str "feature-y"; str "feature-x"] GitClean.delete_branch)
              Sample.two_gone))
  = [str "feature-y"; str "feature-x"]
  /\ safe_deletes
       (trace (run Sample.decline_all
                 (for_of [str "feature-y"; str "feature-x"]
                    (GitCleanup.delete_branch false))
                 Sample.two_gone))
     = [str "feature-y"; str "feature-x"].
Proof.
  assert (Hans : forall b w', exists answer : bool,
             fst (Sample.decline_all _ (PromptConfirm b) w') = inr answer).
  { intros b w'. exists false. reflexivity. }
  destruct (C4_delete_failures_do_not_stop_the_loop
              Sample.state Sample.decline_all
              [str "feature-y"; str "feature-x"] Sample.two_gone Hans)
    as ((_ & H1) & (_ & H2) & _).
  split; [exact H1|exact H2].
Defined.

(** ** The steps before the deletions *)

Arguments GitClean.goneBranches : simpl never.
Arguments GitCleanup.goneBranches : simpl never.

Ltac answer_all h :=
  repeat (next_answer h;
          repeat match goal with
                 | x : (_ + _)%type |- _ => destruct x; simpl
                 | x : bool |- _ => destruct x; simpl
                 end).

(** Case analysis on everything the environment may answer. *)
Ltac all_answers h :=
  repeat first
    [ progress (answer_all h)
    | match goal with
      | |- context [stderr ?e] => destruct (stderr e); simpl
      | |- context [Nat.eqb ?n 0] => destruct (Nat.eqb n 0); simpl
      | |- context [truthy ?v && isArray ?v] => rewrite (truthy_array v)
      | |- context [lookup ?k ?p] => destruct (lookup k p); simpl
      | v : json |- _ => destruct v; simpl
      end ].

Section Steps.

Context {W : Type} (h : env W).

Lemma clean_listing_quiet (w : W) :
  pending (run h GitClean.main_listing w) = []
  /\ forallb harmless (trace (run h GitClean.main_listing w)) = true.
Proof.
  unfold GitClean.main_listing. simpl.
  answer_all h; split; reflexivity.
Qed.

Lemma cleanup_listing_quiet (argv : list jsstring) (w : W) :
  pending (run h (GitCleanup.main_listing argv) w) = []
  /\ forallb harmless (trace (run h (GitCleanup.main_listing argv) w)) = true.
Proof.
  unfold GitCleanup.main_listing, GitCleanup.getDependencies, GitCleanup.print_stderr.
  simpl.
  next_answer h. destruct x; simpl; [split; reflexivity|].
  next_answer h. destruct x; simpl; [split; reflexivity|].
  destruct (GitCleanup.isDryRun argv); simpl;
    all_answers h; split; reflexivity.
Qed.


Lemma clean_selection_quiet (w : W) :
  pending (run h GitClean.main_selection w) = []
  /\ existsb mutating_delete (trace (run h GitClean.main_selection w)) = false.
Proof.
  unfold GitClean.main_selection, GitClean.main_listing, GitClean.getInquirer.
  simpl. all_answers h; split; reflexivity.
Qed.

Lemma cleanup_selection_quiet (argv : list jsstring) (w : W) :
  pending (run h (GitCleanup.main_selection argv) w) = []
  /\ existsb mutating_delete (trace (run h (GitCleanup.main_selection argv) w)) = false.
Proof.
  unfold GitCleanup.main_selection, GitCleanup.main_listing,
    GitCleanup.getDependencies, GitCleanup.print_stderr.
  simpl. destruct (GitCleanup.isDryRun argv); simpl;
    all_answers h; split; reflexivity.
Qed.

(** Up to the selection, a dry run differs from a normal run by its
    opening notice only. *)
Lemma cleanup_selection_dry_run (dry normal : list jsstring) (w : W) :
  GitCleanup.isDryRun dry = true ->
  GitCleanup.isDryRun normal = false ->
  filter (fun e => negb (is_dry_run_notice e))
    (trace (run h (GitCleanup.main_selection dry) w))
  = trace (run h (GitCleanup.main_selection normal) w)
  /\ world (run h (GitCleanup.main_selection dry) w)
     = world (run h (GitCleanup.main_selection normal) w)
  /\ outcome_of (run h (GitCleanup.main_selection dry) w)
     = outcome_of (run h (GitCleanup.main_selection normal) w).
Proof.
  intros Hdry Hnormal.
  unfold GitCleanup.main_selection, GitCleanup.main_listing,
    GitCleanup.getDependencies, GitCleanup.print_stderr.
  simpl. rewrite Hdry, Hnormal. simpl.
  all_answers h; (split; [reflexivity|split; reflexivity]).
Qed.

End Steps.

(** ** The scripts as processes *)

Section Process.

Context {W : Type} (h : env W).

(** What a run of [git-cleanup.js] consists of: the steps up to the
    selection, then the loop, then the closing line. *)
Lemma cleanup_script_run (argv : list jsstring) (w : W) :
  run_process h (GitCleanup.script argv) w =
  let s := run h (GitCleanup.main_selection argv) w in
  match outcome_of s with
  | Returned selection =>
      let l := run h (for_of selection
                        (GitCleanup.delete_branch (GitCleanup.isDryRun argv)))
                 (world s) in
      match outcome_of l with
      | Returned _ =>
          (trace s ++ Printed Log MsgBlank :: trace l ++ [Printed Log MsgComplete], 0%Z)
      | Threw _ => (trace s ++ Printed Log MsgBlank :: trace l, 1%Z)
      | Exited code => (trace s ++ Printed Log MsgBlank :: trace l, code)
      end
  | Threw _ => (trace s, 1%Z)
  | Exited code => (trace s, code)
  end.
Proof.
  unfold run_process, GitCleanup.script, GitCleanup.main.
  rewrite run_try_catch, run_bind.
  destruct (cleanup_selection_quiet h argv w) as [Hp _].
  remember (run h (GitCleanup.main_selection argv) w) as s eqn:Es.
  destruct s as [ts ws ps os]. simpl in Hp. subst ps.
  cbn [outcome_of trace world pending].
  destruct os as [selection|e|code].
  - cbn [bind ret Monad_prog console_log bind_prog].
    cbn [run trace world pending outcome_of].
    rewrite run_bind.
    pose proof (for_of_pending h (GitCleanup.delete_branch (GitCleanup.isDryRun argv))
                  (cleanup_turn_pending h (GitCleanup.isDryRun argv)) selection ws) as Hl.
    remember (run h (for_of selection
                       (GitCleanup.delete_branch (GitCleanup.isDryRun argv))) ws)
      as l eqn:El.
    destruct l as [tl wl pl ol]. simpl in Hl. subst pl.
    cbn [outcome_of trace world pending].
    destruct ol as [[]|e|code]; cbn; rewrite ?app_nil_r; reflexivity.
  - cbn. rewrite ?app_nil_r. reflexivity.
  - cbn. reflexivity.
Qed.

(** The same for [git-clean.js], whose handler prints the error. *)
Lemma clean_script_run (w : W) :
  run_process h GitClean.script w =
  let s := run h GitClean.main_selection w in
  match outcome_of s with
  | Returned selection =>
      let l := run h (for_of selection GitClean.delete_branch) (world s) in
      match outcome_of l with
      | Returned _ =>
          (trace s ++ Printed Log MsgBlank :: trace l ++ [Printed Log MsgComplete], 0%Z)
      | Threw e =>
          (trace s ++ Printed Log MsgBlank :: trace l ++ [Printed Error (MsgUnexpected e)],
           1%Z)
      | Exited code => (trace s ++ Printed Log MsgBlank :: trace l, code)
      end
  | Threw e => (trace s ++ [Printed Error (MsgUnexpected e)], 1%Z)
  | Exited code => (trace s, code)
  end.
Proof.
  unfold run_process, GitClean.script, GitClean.main.
  rewrite run_try_catch, run_bind.
  destruct (clean_selection_quiet h w) as [Hp _].
  remember (run h GitClean.main_selection w) as s eqn:Es.
  destruct s as [ts ws ps os]. simpl in Hp. subst ps.
  cbn [outcome_of trace world pending].
  destruct os as [selection|e|code].
  - cbn [bind ret Monad_prog console_log bind_prog].
    cbn [run trace world pending outcome_of].
    rewrite run_bind.
    pose proof (for_of_pending h GitClean.delete_branch (clean_turn_pending h)
                  selection ws) as Hl.
    remember (run h (for_of selection GitClean.delete_branch) ws) as l eqn:El.
    destruct l as [tl wl pl ol]. simpl in Hl. subst pl.
    cbn [outcome_of trace world pending].
    destruct ol as [[]|e|code]; cbn; rewrite ?app_nil_r; try reflexivity.
    now rewrite <- app_assoc.
  - cbn. reflexivity.
  - cbn. reflexivity.
Qed.

End Process.

Section EmptyCandidates.

Context {W : Type} (h : env W).

Lemma harmless_no_prompt (tr : list event) :
  forallb harmless tr = true -> existsb is_prompt tr = false.
Proof.
  induction tr as [|e tr IH]; simpl; [reflexivity|].
  unfold harmless at 1. intros H.
  apply andb_true_iff in H as [He Htr]. apply andb_true_iff in He as [He _].
  apply negb_true_iff in He. rewrite He. now apply IH.
Qed.

Lemma clean_nothing_to_do (w : W) (text : jsstring) :
  outcome_of (run h GitClean.main_listing w) = Returned text ->
  GitClean.goneBranches text = [] ->
  run h GitClean.main_selection w
  = mkResult (trace (run h GitClean.main_listing w) ++ [Printed Log MsgNothingToDo])
      (world (run h GitClean.main_listing w)) [] (Exited 0).
Proof.
  intros Hout Hgone. unfold GitClean.main_selection.
  cbn [bind ret Monad_prog]. rewrite run_bind, Hout.
  destruct (clean_listing_quiet h w) as [Hp _]. rewrite Hp.
  cbv zeta. rewrite Hgone. reflexivity.
Qed.

Lemma cleanup_nothing_to_do (argv : list jsstring) (w : W)
    (text : jsstring) (names : list json) :
  outcome_of (run h (GitCleanup.main_listing argv) w) = Returned (text, names) ->
  GitCleanup.goneBranches text names = [] ->
  run h (GitCleanup.main_selection argv) w
  = mkResult (trace (run h (GitCleanup.main_listing argv) w)
              ++ [Printed Log MsgNothingToDo])
      (world (run h (GitCleanup.main_listing argv) w)) [] (Exited 0).
Proof.
  intros Hout Hgone. unfold GitCleanup.main_selection.
  cbn [bind ret Monad_prog]. rewrite run_bind, Hout.
  destruct (cleanup_listing_quiet h argv w) as [Hp _]. rewrite Hp.
  cbv zeta. cbn [fst snd]. rewrite Hgone. reflexivity.
Qed.

End EmptyCandidates.

(** C6: when the listing succeeds and its candidate list is empty, either
    script prints its "nothing to do" line last, exits with status 0, and
    has shown no prompt. *)
Theorem C6_no_candidates_exits_0_without_prompt :
  forall (W : Type) (h : env W) (w : W),
    (forall text,
        outcome_of (run h GitClean.main_listing w) = Returned text ->
        GitClean.goneBranches text = [] ->
        run_process h GitClean.script w
        = (trace (run h GitClean.main_listing w) ++ [Printed Log MsgNothingToDo], 0%Z)
        /\ existsb is_prompt (fst (run_process h GitClean.script w)) = false)
    /\ (forall argv text names,
           outcome_of (run h (GitCleanup.main_listing argv) w) = Returned (text, names) ->
           GitCleanup.goneBranches text names = [] ->
           run_process h (GitCleanup.script argv) w
           = (trace (run h (GitCleanup.main_listing argv) w)
              ++ [Printed Log MsgNothingToDo], 0%Z)
           /\ existsb is_prompt (fst (run_process h (GitCleanup.script argv) w)) = false).
Proof.
  intros W h w. split.
  - intros text Hout Hgone.
    rewrite clean_script_run, (clean_nothing_to_do h w text Hout Hgone).
    cbn [outcome_of trace fst]. split; [reflexivity|].
    rewrite existsb_app. destruct (clean_listing_quiet h w) as [_ Hq].
    now rewrite (harmless_no_prompt _ Hq).
  - intros argv text names Hout Hgone.
    rewrite cleanup_script_run, (cleanup_nothing_to_do h argv w text names Hout Hgone).
    cbn [outcome_of trace fst]. split; [reflexivity|].
    rewrite existsb_app. destruct (cleanup_listing_quiet h argv w) as [_ Hq].
    now rewrite (harmless_no_prompt _ Hq).
Qed.

(** The sample repository in which only [main] is gone. *)
Lemma C6_witness :
  snd (run_process Sample.answer GitClean.script Sample.only_main_gone) = 0%Z
  /\ existsb is_prompt
       (fst (run_process Sample.answer GitClean.script Sample.only_main_gone)) = false
  /\ snd (run_process Sample.answer (GitCleanup.script []) Sample.only_main_gone) = 0%Z
  /\ existsb is_prompt
       (fst (run_process Sample.answer (GitCleanup.script []) Sample.only_main_gone))
     = false.
Proof.
  destruct (C6_no_candidates_exits_0_without_prompt
              Sample.state Sample.answer Sample.only_main_gone) as [Hclean Hcleanup].
  destruct (Hclean (str "  main 9a8b7c6 [origin/main: gone] init")) as [R1 P1].
  { vm_compute. reflexivity. }
  { vm_compute. reflexivity. }
  destruct (Hcleanup [] (str "  main 9a8b7c6 [origin/main: gone] init")
              GitCleanup.defaults) as [R2 P2].
  { vm_compute. reflexivity. }
  { vm_compute. reflexivity. }
  rewrite R1, R2. cbn [snd].
  split; [reflexivity|]. split; [exact P1|]. split; [reflexivity|exact P2].
Defined.

(** ** Dry run *)

Lemma would_delete_lines_delete_nothing (selection : list jsstring) (rest : list event) :
  existsb mutating_delete
    (map (fun b => Printed Log (MsgWouldDelete b)) selection ++ rest)
  = existsb mutating_delete rest.
Proof. induction selection as [|b sel IH]; simpl; [reflexivity|exact IH]. Qed.

(** C2: with [--dry-run] on the command line, whatever the environment
    answers and whatever is selected, no [git branch -d] or [git branch -D]
    is run; once a selection is made, each selected branch gets one "Would
    delete" line instead, and the process ends with status 0; and the steps
    up to and including the selection prompt make the same calls, get the
    same answers and end the same way as without the flag, the dry-run
    notice being the only difference. *)
Theorem C2_dry_run_never_deletes :
  forall (W : Type) (h : env W) (w : W) (argv : list jsstring),
    GitCleanup.isDryRun argv = true ->
    existsb mutating_delete (fst (run_process h (GitCleanup.script argv) w)) = false
    /\ (forall selection,
           outcome_of (run h (GitCleanup.main_selection argv) w) = Returned selection ->
           run_process h (GitCleanup.script argv) w
           = (trace (run h (GitCleanup.main_selection argv) w)
              ++ Printed Log MsgBlank
                 :: map (fun b => Printed Log (MsgWouldDelete b)) selection
                 ++ [Printed Log MsgComplete],
              0%Z))
    /\ (forall normal,
           GitCleanup.isDryRun normal = false ->
           filter (fun e => negb (is_dry_run_notice e))
             (trace (run h (GitCleanup.main_selection argv) w))
           = trace (run h (GitCleanup.main_selection normal) w)
           /\ world (run h (GitCleanup.main_selection argv) w)
              = world (run h (GitCleanup.main_selection normal) w)
           /\ outcome_of (run h (GitCleanup.main_selection argv) w)
              = outcome_of (run h (GitCleanup.main_selection normal) w)).
Proof.
  intros W h w argv Hdry.
  destruct (cleanup_selection_quiet h argv w) as [_ Hquiet].
  split; [|split].
  - rewrite cleanup_script_run, Hdry. cbv zeta.
    destruct (outcome_of (run h (GitCleanup.main_selection argv) w))
      as [selection|e|code]; cbn [fst]; [|exact Hquiet|exact Hquiet].
    rewrite dry_loop. cbn [outcome_of trace fst].
    rewrite existsb_app, Hquiet. cbn [existsb orb mutating_delete git_args].
    now rewrite would_delete_lines_delete_nothing.
  - intros selection Hsel.
    rewrite cleanup_script_run. cbv zeta. rewrite Hdry, Hsel.
    rewrite dry_loop. reflexivity.
  - intros normal Hnormal. now apply cleanup_selection_dry_run.
Qed.

(** A dry run on the sample repository with both gone branches selected. *)
Lemma C2_witness :
  existsb mutating_delete
    (fst (run_process Sample.answer (GitCleanup.script dry_run_argv) Sample.two_gone))
  = false
  /\ simulated_deletes
       (fst (run_process Sample.answer (GitCleanup.script dry_run_argv) Sample.two_gone))
     = [str "feature-y"; str "feature-x"]
  /\ snd (run_process Sample.answer (GitCleanup.script dry_run_argv) Sample.two_gone)
     = 0%Z.
Proof.
  assert (Hdry : GitCleanup.isDryRun dry_run_argv = true) by (vm_compute; reflexivity).
  destruct (C2_dry_run_never_deletes Sample.state Sample.answer Sample.two_gone
              dry_run_argv Hdry) as (Hnone & Hlines & _).
  split; [exact Hnone|].
  rewrite (Hlines [str "feature-y"; str "feature-x"]) by (vm_compute; reflexivity).
  split; vm_compute; reflexivity.
Defined.

(** ** Exit status and diagnostics *)

(** When [main] rejects, the handler of [git-clean.js] prints the error
    and exits with 1; the handler of [git-cleanup.js] exits with 1 before
    the reaction that would print it can run. *)
Lemma clean_rejection_is_reported {W : Type} (h : env W) (w : W) (e : error) :
  outcome_of (run h GitClean.main w) = Threw e ->
  run_process h GitClean.script w
  = (trace (run h GitClean.main w) ++ [Printed Error (MsgUnexpected e)], 1%Z).
Proof.
  intros H. unfold run_process, GitClean.script.
  rewrite run_try_catch, H. reflexivity.
Qed.

Lemma cleanup_rejection_is_silent {W : Type} (h : env W) (w : W)
    (argv : list jsstring) (e : error) :
  outcome_of (run h (GitCleanup.main argv) w) = Threw e ->
  run_process h (GitCleanup.script argv) w
  = (trace (run h (GitCleanup.main argv) w), 1%Z).
Proof.
  intros H. unfold run_process, GitCleanup.script.
  rewrite run_try_catch, H. cbn. now rewrite app_nil_r.
Qed.

(** C7 (the code at the failing input): when [git branch -vv] throws,
    [git-cleanup.js] exits with status 1 having written nothing with
    [console.error]: the line "An unexpected error occurred" is queued
    behind the import of [chalk] and [process.exit(1)] comes first.
    [git-clean.js], in the same environment, prints it. *)
Theorem C7_unexpected_error_exits_without_diagnostic :
  run_process Sample.answer (GitCleanup.script []) Sample.listing_fails
  = ([Called (Import (str "inquirer")) (inr tt);
      Called (Import (str "chalk")) (inr tt);
      Called (ExecFileSync git rev_parse_args StdioIgnore) (inr (str "true"));
      Printed Log MsgFetching;
      Called (ExecFileSync git fetch_args StdioInherit) (inr []);
      Called (ExecFileSync git branch_vv_args EncodingUtf8)
        (inl (Sample.failed "fatal: unable to read the branch list"))],
     1%Z)
  /\ existsb is_diagnostic
       (fst (run_process Sample.answer (GitCleanup.script []) Sample.listing_fails))
     = false
  /\ List.length
       (pending (run Sample.answer (GitCleanup.script []) Sample.listing_fails))
     = 1%nat
  /\ run_process Sample.answer GitClean.script Sample.listing_fails
     = ([Called (ExecFileSync git rev_parse_args StdioIgnore) (inr (str "true"));
         Printed Log MsgFetching;
         Called (ExecFileSync git fetch_args StdioInherit) (inr []);
         Called (ExecFileSync git branch_vv_args EncodingUtf8)
           (inl (Sample.failed "fatal: unable to read the branch list"));
         Printed Error
           (MsgUnexpected (Sample.failed "fatal: unable to read the branch list"))],
        1%Z).
Proof.
  split; [vm_compute; reflexivity|].
  split; [vm_compute; reflexivity|].
  split; vm_compute; reflexivity.
Qed.

(** The two aborting failures that are handled in place do print. *)
Lemma cleanup_not_a_repository {W : Type} (h : env W) (w w1 w2 w3 : W)
    (argv : list jsstring) (e : error) :
  GitCleanup.isDryRun argv = false ->
  h _ (Import (str "inquirer")) w = (inr tt, w1) ->
  h _ (Import (str "chalk")) w1 = (inr tt, w2) ->
  h _ (ExecFileSync git rev_parse_args StdioIgnore) w2 = (inl e, w3) ->
  run_process h (GitCleanup.script argv) w
  = ([Called (Import (str "inquirer")) (inr tt);
      Called (Import (str "chalk")) (inr tt);
      Called (ExecFileSync git rev_parse_args StdioIgnore) (inl e);
      Printed Error MsgNotARepository],
     1%Z).
Proof.
  intros Hdry H1 H2 H3. rewrite cleanup_script_run. cbv zeta.
  unfold GitCleanup.main_selection, GitCleanup.main_listing,
    GitCleanup.getDependencies.
  simpl. rewrite H1. simpl. rewrite H2, Hdry. simpl. rewrite H3. reflexivity.
Qed.

Lemma cleanup_fetch_failure {W : Type} (h : env W) (w w1 w2 w3 w4 : W)
    (argv : list jsstring) (out : jsstring) (e : error) :
  GitCleanup.isDryRun argv = false ->
  h _ (Import (str "inquirer")) w = (inr tt, w1) ->
  h _ (Import (str "chalk")) w1 = (inr tt, w2) ->
  h _ (ExecFileSync git rev_parse_args StdioIgnore) w2 = (inr out, w3) ->
  h _ (ExecFileSync git fetch_args StdioInherit) w3 = (inl e, w4) ->
  snd (run_process h (GitCleanup.script argv) w) = 1%Z
  /\ In (Printed Error MsgFetchFailed)
        (fst (run_process h (GitCleanup.script argv) w)).
Proof.
  intros Hdry H1 H2 H3 H4. rewrite cleanup_script_run. cbv zeta.
  unfold GitCleanup.main_selection, GitCleanup.main_listing,
    GitCleanup.getDependencies, GitCleanup.print_stderr.
  simpl. rewrite H1. simpl. rewrite H2, Hdry. simpl. rewrite H3. simpl.
  rewrite H4. simpl. destruct (stderr e); simpl; split; auto 10.
Qed.

(** The configuration lookup on the sample environments. *)
Example sample_config_is_used :
  outcome_of (run Sample.answer GitCleanup.getProtectedBranches Sample.with_config)
  = Returned [JString (str "feature-x")]
  /\ outcome_of (run Sample.answer GitCleanup.getProtectedBranches Sample.two_gone)
     = Returned GitCleanup.defaults.
Proof. split; vm_compute; reflexivity. Qed.

(** The scenarios of the specification. *)
Example scenario_feature_x :
  GitCleanup.goneBranches (str "feature-x  abc123 [origin/feature-x: gone] msg")
    [JString (str "main")]
  = [str "feature-x"].
Proof. vm_compute. reflexivity. Qed.

Example scenario_main_only :
  GitCleanup.goneBranches (str "main  abc123 [origin/main: gone] msg")
    GitCleanup.defaults
  = []
  /\ GitClean.goneBranches (str "main  abc123 [origin/main: gone] msg") = [].
Proof. split; vm_compute; reflexivity. Qed.

(** * Further properties of the code *)

(** ** The classifier, line by line *)

Lemma split_app (sep : N) (a b : jsstring) :
  split sep (a ++ sep :: b) = split sep a ++ split sep b.
Proof.
  induction a as [|c a IH]; simpl.
  - now rewrite N.eqb_refl.
  - destruct (c =? sep); [now rewrite IH|].
    rewrite IH. pose proof (split_not_nil sep a) as Hn.
    destruct (split sep a) as [|t ts]; [contradiction|reflexivity].
Qed.

(** X1: the candidates of two listings put one after the other (with a
    line feed between them) are the candidates of the first followed by the
    candidates of the second. *)
Theorem X1_classifier_of_concatenated_listings :
  forall (a b : jsstring),
    GitClean.goneBranches (a ++ LF :: b)
    = GitClean.goneBranches a ++ GitClean.goneBranches b
    /\ forall names,
         GitCleanup.goneBranches (a ++ LF :: b) names
         = GitCleanup.goneBranches a names ++ GitCleanup.goneBranches b names.
Proof.
  intros a b.
  assert (H : forall names,
             GitCleanup.goneBranches (a ++ LF :: b) names
             = GitCleanup.goneBranches a names ++ GitCleanup.goneBranches b names).
  { intros names. unfold GitCleanup.goneBranches.
    now rewrite split_app, !filter_app, map_app, filter_app. }
  split; [|exact H]. rewrite !clean_is_cleanup. apply H.
Qed.

Lemma take_drop_while (p : N -> bool) (s : jsstring) :
  s = take_while p s ++ drop_while p s.
Proof.
  induction s as [|c s IH]; simpl; [reflexivity|].
  destruct (p c); simpl; [now rewrite <- IH|reflexivity].
Qed.

Lemma take_while_holds (p : N -> bool) (s : jsstring) (c : N) :
  In c (take_while p s) -> p c = true /\ In c s.
Proof.
  induction s as [|a s IH]; simpl; [intros []|].
  destruct (p a) eqn:E; [|intros []].
  intros [<-|H]; [split; [exact E|now left]|].
  destruct (IH H). split; [assumption|now right].
Qed.

Lemma drop_while_in (p : N -> bool) (s : jsstring) (c : N) :
  In c (drop_while p s) -> In c s.
Proof.
  induction s as [|a s IH]; simpl; [intros []|].
  destruct (p a); [intros H; right; now apply IH|exact (fun H => H)].
Qed.

Lemma drop_while_head (p : N -> bool) (s : jsstring) (c : N) (r : jsstring) :
  drop_while p s = c :: r -> p c = false.
Proof.
  induction s as [|a s IH]; simpl; [discriminate|].
  destruct (p a) eqn:E; [exact IH|].
  intros H. injection H as -> _. exact E.
Qed.

(** The token of a line that holds the marker. *)
Lemma gone_line_name (line : jsstring) :
  includes gone_marker line = true ->
  branch_of_line line <> [] /\ ~ In SPACE (branch_of_line line).
Proof.
  intros Hg. rewrite (branch_of_gone_line line Hg).
  unfold Spec.first_space_token. split.
  - apply includes_inv in Hg as (pre & post & ->).
    rewrite gone_marker_units. simpl app.
    rewrite (drop_while_stop is_white_space pre 58) by reflexivity.
    destruct (drop_while is_white_space pre) as [|c u] eqn:E; simpl.
    + discriminate.
    + apply drop_while_head in E.
      destruct (c =? SPACE) eqn:Ec; simpl; [|discriminate].
      apply N.eqb_eq in Ec. subst c. discriminate E.
  - intros H. apply take_while_holds in H as [H _].
    unfold SPACE in H. simpl in H. discriminate H.
Qed.

Lemma branch_of_line_units (line : jsstring) (c : N) :
  includes gone_marker line = true ->
  In c (branch_of_line line) -> In c line.
Proof.
  intros Hg. rewrite (branch_of_gone_line line Hg).
  unfold Spec.first_space_token. intros H.
  apply take_while_holds in H as [_ H]. now apply drop_while_in in H.
Qed.

Lemma candidates_well_formed (text : jsstring) (names : list json) :
  Forall (fun b => well_formed_name b /\ array_includes names b = false)
    (GitCleanup.goneBranches text names).
Proof.
  apply Forall_forall. intros b Hb.
  unfold GitCleanup.goneBranches in Hb.
  apply filter_In in Hb as [Hb Hp]. apply negb_true_iff in Hp.
  split; [|exact Hp].
  apply in_map_iff in Hb as (line & <- & Hl).
  apply filter_In in Hl as [Hl Hg].
  destruct (gone_line_name line Hg) as [Hne Hsp].
  split; [exact Hne|]. split; [exact Hsp|].
  intros Hlf. apply (split_pieces LF text line Hl).
  now apply branch_of_line_units.
Qed.

(** X2: every candidate either script computes is a non-empty name that
    holds neither a space nor a line feed, and is not a protected name. *)
Theorem X2_candidates_are_well_formed_and_unprotected :
  forall (text : jsstring) (names : list json),
    Forall (fun b => well_formed_name b /\ array_includes names b = false)
      (GitCleanup.goneBranches text names)
    /\ Forall (fun b => well_formed_name b
                        /\ array_includes GitClean.protectedBranches b = false)
         (GitClean.goneBranches text).
Proof.
  intros text names. split; [apply candidates_well_formed|].
  rewrite clean_is_cleanup. apply candidates_well_formed.
Qed.

(** Every piece of a split is a substring of the text. *)
Lemma split_piece_substring (sep : N) (s piece : jsstring) :
  In piece (split sep s) -> exists pre post, s = pre ++ piece ++ post.
Proof.
  revert piece. induction s as [|c s IH]; simpl; intros piece H.
  - destruct H as [<-|[]]. now exists [], [].
  - destruct (c =? sep) eqn:E.
    + destruct H as [<-|H]; [now exists [], (c :: s)|].
      destruct (IH piece H) as (pre & post & ->). now exists (c :: pre), post.
    + pose proof (first_split sep s) as Hf.
      destruct (split sep s) as [|t ts] eqn:Es.
      * destruct H as [<-|[]]. exfalso. now apply (split_not_nil sep s).
      * destruct H as [<-|H].
        -- simpl in Hf. exists [], (drop_while (fun c0 => negb (c0 =? sep)) s).
           simpl. f_equal. rewrite Hf. apply take_drop_while.
        -- destruct (IH piece (or_intror H)) as (pre & post & ->).
           now exists (c :: pre), post.
Qed.

Lemma includes_piece (sep : N) (sub s piece : jsstring) :
  In piece (split sep s) -> includes sub piece = true -> includes sub s = true.
Proof.
  intros Hin Hsub.
  destruct (split_piece_substring sep s piece Hin) as (pre & post & ->).
  apply includes_inv in Hsub as (a & b & ->).
  replace (pre ++ (a ++ sub ++ b) ++ post)
    with ((pre ++ a) ++ sub ++ (b ++ post))
    by (repeat rewrite <- app_assoc; reflexivity).
  apply includes_app.
Qed.

Lemma startsWith_take_while (sep : N) (sub s : jsstring) :
  ~ In sep sub -> startsWith sub s = true ->
  startsWith sub (take_while (fun c => negb (c =? sep)) s) = true.
Proof.
  revert s. induction sub as [|a sub IH]; intros s Hsep H; [reflexivity|].
  destruct s as [|b s]; simpl in H; [discriminate|].
  apply andb_true_iff in H as [Hab H]. apply N.eqb_eq in Hab. subst b.
  simpl. destruct (a =? sep) eqn:E.
  - apply N.eqb_eq in E. exfalso. apply Hsep. now left.
  - simpl. rewrite N.eqb_refl. simpl. apply IH; [|exact H].
    intros Hin. apply Hsep. now right.
Qed.

Lemma startsWith_includes (sub s : jsstring) :
  startsWith sub s = true -> includes sub s = true.
Proof. intros H. destruct s; simpl; rewrite H; reflexivity. Qed.

(** A substring without a separator lies within one piece. *)
Lemma includes_some_piece (sep : N) (sub s : jsstring) :
  ~ In sep sub -> includes sub s = true ->
  exists piece, In piece (split sep s) /\ includes sub piece = true.
Proof.
  intros Hsep. induction s as [|c s IH]; intros H.
  - exists []. split; [now left|exact H].
  - simpl in H. apply orb_true_iff in H as [H|H].
    + exists (first (split sep (c :: s))). split.
      * pose proof (split_not_nil sep (c :: s)) as Hn.
        destruct (split sep (c :: s)); [contradiction|now left].
      * rewrite first_split. apply startsWith_includes.
        now apply startsWith_take_while.
    + destruct (IH H) as (piece & Hin & Hp). simpl.
      destruct (c =? sep).
      * exists piece. split; [now right|exact Hp].
      * destruct (split sep s) as [|t ts]; [destruct Hin|].
        destruct Hin as [<-|Hin].
        -- exists (c :: t). split; [now left|].
           simpl. rewrite Hp. apply orb_true_r.
        -- exists piece. split; [now right|exact Hp].
Qed.

(** X3: when the listing does not hold [: gone]] anywhere, both
    classifiers return no candidate, whatever is protected; when it does,
    the classifier returns at least one candidate as soon as nothing is
    protected. *)
Theorem X3_no_marker_no_candidate :
  forall text : jsstring,
    if includes gone_marker text
    then GitCleanup.goneBranches text [] <> []
    else GitClean.goneBranches text = []
         /\ forall names, GitCleanup.goneBranches text names = [].
Proof.
  intros text. destruct (includes gone_marker text) eqn:E.
  - destruct (includes_some_piece LF gone_marker text) as (line & Hin & Hg);
      [rewrite gone_marker_units; unfold LF; simpl; intuition discriminate
      |exact E|].
    intros Hnil.
    assert (Hb : In (branch_of_line line) (GitCleanup.goneBranches text [])).
    { unfold GitCleanup.goneBranches. apply filter_In. split; [|reflexivity].
      apply in_map. apply filter_In. now split. }
    rewrite Hnil in Hb. destruct Hb.
  - assert (Hnone : filter (fun line => includes gone_marker line) (split LF text) = []).
    { destruct (filter (fun line => includes gone_marker line) (split LF text))
        as [|line rest] eqn:Ef; [reflexivity|].
      assert (Hl : In line (filter (fun l => includes gone_marker l) (split LF text)))
        by (rewrite Ef; now left).
      apply filter_In in Hl as [Hl Hg].
      rewrite (includes_piece LF gone_marker text line Hl Hg) in E. discriminate E. }
    split; [|intros names]; unfold GitClean.goneBranches, GitCleanup.goneBranches;
      now rewrite Hnone.
Qed.

(** ** White space around a line *)

Lemma drop_while_all (p : N -> bool) (ws s : jsstring) :
  forallb p ws = true -> drop_while p (ws ++ s) = drop_while p s.
Proof.
  induction ws as [|c ws IH]; simpl; [reflexivity|].
  intros H. apply andb_true_iff in H as [Hc H]. rewrite Hc. now apply IH.
Qed.

Lemma forallb_rev (p : N -> bool) (s : jsstring) :
  forallb p s = true -> forallb p (rev s) = true.
Proof.
  rewrite !forallb_forall. intros H x Hx. apply H. now apply in_rev.
Qed.

Lemma trimEnd_white (s q : jsstring) :
  all_white_space q = true -> trimEnd (s ++ q) = trimEnd s.
Proof.
  intros H. unfold trimEnd. rewrite rev_app_distr.
  rewrite drop_while_all; [reflexivity|]. now apply forallb_rev.
Qed.

Lemma trim_white (p s q : jsstring) :
  all_white_space p = true -> all_white_space q = true ->
  trim (p ++ s ++ q) = trim s.
Proof.
  intros Hp Hq. unfold trim, trimStart.
  rewrite (drop_while_all is_white_space p) by exact Hp.
  induction s as [|c s IH]; simpl.
  - replace q with (q ++ []) by apply app_nil_r.
    rewrite (drop_while_all is_white_space q) by exact Hq. reflexivity.
  - destruct (is_white_space c); [exact IH|].
    change (c :: s ++ q) with ((c :: s) ++ q). now apply trimEnd_white.
Qed.

Lemma includes_skip (sub p s : jsstring) (c : N) (rest : jsstring) :
  sub = c :: rest -> ~ In c p -> includes sub (p ++ s) = includes sub s.
Proof.
  intros -> Hc. induction p as [|a p IH]; [reflexivity|].
  simpl. destruct (c =? a) eqn:E.
  - apply N.eqb_eq in E. exfalso. apply Hc. now left.
  - simpl. apply IH. intros H. apply Hc. now right.
Qed.

Lemma app_cut (x y s q : jsstring) (l : N) :
  x ++ l :: y = s ++ q -> ~ In l q -> exists y', s = x ++ l :: y'.
Proof.
  revert s. induction x as [|a x IH]; intros s H Hl; simpl in H.
  - destruct s as [|b s]; simpl in H.
    + exfalso. apply Hl. rewrite <- H. now left.
    + injection H as <- _. now exists s.
  - destruct s as [|b s]; simpl in H.
    + exfalso. apply Hl. rewrite <- H. right. apply in_or_app. right. now left.
    + injection H as <- H. destruct (IH s H Hl) as [y' ->]. now exists y'.
Qed.

Lemma includes_drop_tail (front : jsstring) (l : N) (s q : jsstring) :
  ~ In l q ->
  includes (front ++ [l]) (s ++ q) = includes (front ++ [l]) s.
Proof.
  intros Hl. destruct (includes (front ++ [l]) s) eqn:E.
  - apply includes_inv in E as (pre & post & ->).
    replace ((pre ++ (front ++ [l]) ++ post) ++ q)
      with (pre ++ (front ++ [l]) ++ (post ++ q))
      by (repeat rewrite <- app_assoc; reflexivity).
    apply includes_app.
  - destruct (includes (front ++ [l]) (s ++ q)) eqn:E'; [|reflexivity].
    apply includes_inv in E' as (pre & post & H).
    assert (H' : (pre ++ front) ++ l :: post = s ++ q).
    { rewrite H. repeat rewrite <- app_assoc. reflexivity. }
    destruct (app_cut _ _ _ _ _ H' Hl) as [y' Hs].
    rewrite <- E. subst s.
    replace ((pre ++ front) ++ l :: y') with (pre ++ (front ++ [l]) ++ y')
      by (repeat rewrite <- app_assoc; reflexivity).
    symmetry. apply includes_app.
Qed.

Lemma white_space_lacks (c : N) (p : jsstring) :
  is_white_space c = false -> all_white_space p = true -> ~ In c p.
Proof.
  intros Hc Hp Hin. unfold all_white_space in Hp.
  rewrite forallb_forall in Hp. rewrite (Hp c Hin) in Hc. discriminate Hc.
Qed.

(** X4: white space before and after a listing line (indentation, a
    trailing carriage return) changes neither whether the line is taken as
    gone nor the name taken from it. *)
Theorem X4_surrounding_white_space_is_ignored :
  forall p line q : jsstring,
    all_white_space p = true ->
    all_white_space q = true ->
    includes gone_marker (p ++ line ++ q) = includes gone_marker line
    /\ branch_of_line (p ++ line ++ q) = branch_of_line line.
Proof.
  intros p line q Hp Hq. split.
  - rewrite gone_marker_units.
    rewrite (includes_skip _ p (line ++ q) 58 [32; 103; 111; 110; 101; 93] eq_refl)
      by (apply white_space_lacks; [reflexivity|exact Hp]).
    apply (includes_drop_tail [58; 32; 103; 111; 110; 101] 93).
    apply white_space_lacks; [reflexivity|exact Hq].
  - unfold branch_of_line. now rewrite trim_white.
Qed.

(** An indented line ending in a carriage return. *)
Lemma X4_witness :
  includes gone_marker (str "  " ++ crlf_line ++ [13]) = includes gone_marker crlf_line
  /\ branch_of_line (str "  " ++ crlf_line ++ [13]) = branch_of_line crlf_line.
Proof.
  apply (X4_surrounding_white_space_is_ignored (str "  ") crlf_line [13]).
  - vm_compute. reflexivity.
  - vm_compute. reflexivity.
Defined.

(** ** The protected names *)

Lemma filter_twice {A : Type} (p q : A -> bool) (l : list A) :
  filter (fun x => p x && q x) l = filter q (filter p l).
Proof.
  induction l as [|x l IH]; simpl; [reflexivity|].
  destruct (p x); simpl; [|exact IH].
  destruct (q x); now rewrite IH.
Qed.

(** X5: protecting more names only removes candidates: the candidates
    under [names ++ more] are the candidates under [names] without those
    [more] protects.  In particular the candidates of [git-cleanup.js]
    under its built-in list are those of [git-clean.js] without [prod] and
    [production]. *)
Theorem X5_more_protection_filters_candidates :
  forall (text : jsstring) (names more : list json),
    GitCleanup.goneBranches text (names ++ more)
    = filter (fun b => negb (array_includes more b))
        (GitCleanup.goneBranches text names)
    /\ GitCleanup.goneBranches text GitCleanup.defaults
       = filter (fun b => negb (JS.eqb (str "prod") b || JS.eqb (str "production") b))
           (GitClean.goneBranches text).
Proof.
  assert (H : forall text names more,
             GitCleanup.goneBranches text (names ++ more)
             = filter (fun b => negb (array_includes more b))
                 (GitCleanup.goneBranches text names)).
  { intros text names more. unfold GitCleanup.goneBranches.
    rewrite <- filter_twice. apply filter_ext. intros b.
    unfold array_includes. now rewrite existsb_app, negb_orb. }
  intros text names more. split; [apply H|].
  rewrite defaults_extend_clean, H, clean_is_cleanup.
  apply filter_ext. intros b. unfold array_includes. simpl.
  now rewrite orb_false_r.
Qed.

Lemma array_includes_strings (names : list json) (b : jsstring) :
  array_includes (filter is_string names) b = array_includes names b.
Proof.
  unfold array_includes. induction names as [|v names IH]; simpl; [reflexivity|].
  destruct v; simpl; rewrite ?IH; reflexivity.
Qed.

(** X6: entries of the configured list that are not strings (numbers,
    [null], nested arrays or objects) protect nothing: the candidates are
    those computed from the string entries alone. *)
Theorem X6_only_string_entries_protect :
  forall (text : jsstring) (names : list json),
    GitCleanup.goneBranches text names
    = GitCleanup.goneBranches text (filter is_string names).
Proof.
  intros text names. unfold GitCleanup.goneBranches.
  apply filter_ext. intros b. now rewrite array_includes_strings.
Qed.

(** ** What every run does and never does *)

Section Turns.

Context {W : Type} (h : env W).

(** A turn that is not dry starts with [git branch -d], whatever follows. *)
Lemma clean_turn_safe (b : jsstring) (w : W) :
  flat_map safe_delete_of (trace (run h (GitClean.delete_branch b) w)) = [b].
Proof.
  unfold GitClean.delete_branch. simpl.
  destruct (h _ (ExecFileSync git (delete_args b) NoOptions) w)
    as [[err|out] w1]; simpl; [|reflexivity].
  destruct (includes not_fully_merged (message err)); simpl; [|reflexivity].
  destruct (h _ (PromptConfirm b) w1) as [[e|[|]] w2]; simpl; try reflexivity.
  destruct (h _ (ExecFileSync git (force_delete_args b) NoOptions) w2)
    as [[e|out] w3]; reflexivity.
Qed.

Lemma cleanup_turn_safe (b : jsstring) (w : W) :
  flat_map safe_delete_of (trace (run h (GitCleanup.delete_branch false b) w)) = [b].
Proof.
  unfold GitCleanup.delete_branch, GitCleanup.print_stderr. simpl.
  destruct (h _ (ExecFileSync git (delete_args b) NoOptions) w)
    as [[err|out] w1]; simpl; [|reflexivity].
  destruct (includes not_fully_merged (message err)); simpl;
    [|destruct (stderr err); reflexivity].
  destruct (h _ (PromptConfirm b) w1) as [[e|[|]] w2]; simpl; try reflexivity.
  destruct (h _ (ExecFileSync git (force_delete_args b) NoOptions) w2)
    as [[e|out] w3]; simpl; [destruct (stderr e)|]; reflexivity.
Qed.

(** A loop whose every turn leaves its branch, returning or not, leaves a
    prefix of the selection. *)
Lemma for_of_prefix (body : jsstring -> prog unit) (f : event -> list jsstring) :
  (forall b w, flat_map f (trace (run h (body b) w)) = [b]) ->
  forall selection w,
    exists rest,
      selection = flat_map f (trace (run h (for_of selection body) w)) ++ rest.
Proof.
  intros Hbody. induction selection as [|b sel IH]; intros w; simpl.
  - now exists [].
  - rewrite run_bind.
    destruct (outcome_of (run h (body b) w)); simpl.
    + destruct (IH (world (run h (body b) w))) as [rest Hrest].
      exists rest. rewrite flat_map_app, Hbody. simpl. now f_equal.
    + exists sel. now rewrite Hbody.
    + exists sel. now rewrite Hbody.
Qed.

(** An observation that is empty on every turn is empty on the loop. *)
Lemma for_of_none {A : Type} (body : jsstring -> prog unit) (f : event -> list A) :
  (forall b w, flat_map f (trace (run h (body b) w)) = []) ->
  forall selection w, flat_map f (trace (run h (for_of selection body) w)) = [].
Proof.
  intros Hbody. induction selection as [|b sel IH]; intros w; simpl.
  - reflexivity.
  - rewrite run_bind.
    destruct (outcome_of (run h (body b) w)); simpl; [|apply Hbody|apply Hbody].
    now rewrite flat_map_app, Hbody, IH.
Qed.

(** The loop never calls [process.exit]. *)
Lemma for_of_no_exit (body : jsstring -> prog unit) :
  (forall b w code, outcome_of (run h (body b) w) <> Exited code) ->
  forall selection w code,
    outcome_of (run h (for_of selection body) w) <> Exited code.
Proof.
  intros Hbody. induction selection as [|b sel IH]; intros w code; simpl.
  - discriminate.
  - rewrite run_bind.
    destruct (outcome_of (run h (body b) w)) as [[]|e|c] eqn:E; simpl.
    + apply IH.
    + discriminate.
    + exfalso. now apply (Hbody b w c).
Qed.

Lemma clean_turn_no_exit (b : jsstring) (w : W) (code : Z) :
  outcome_of (run h (GitClean.delete_branch b) w) <> Exited code.
Proof.
  unfold GitClean.delete_branch. simpl.
  destruct (h _ (ExecFileSync git (delete_args b) NoOptions) w)
    as [[err|out] w1]; simpl; [|discriminate].
  destruct (includes not_fully_merged (message err)); simpl; [|discriminate].
  destruct (h _ (PromptConfirm b) w1) as [[e|[|]] w2]; simpl; try discriminate.
  destruct (h _ (ExecFileSync git (force_delete_args b) NoOptions) w2)
    as [[e|out] w3]; discriminate.
Qed.

Lemma cleanup_turn_no_exit (dry : bool) (b : jsstring) (w : W) (code : Z) :
  outcome_of (run h (GitCleanup.delete_branch dry b) w) <> Exited code.
Proof.
  unfold GitCleanup.delete_branch, GitCleanup.print_stderr.
  destruct dry; simpl; [discriminate|].
  destruct (h _ (ExecFileSync git (delete_args b) NoOptions) w)
    as [[err|out] w1]; simpl; [|discriminate].
  destruct (includes not_fully_merged (message err)); simpl;
    [|destruct (stderr err); discriminate].
  destruct (h _ (PromptConfirm b) w1) as [[e|[|]] w2]; simpl; try discriminate.
  destruct (h _ (ExecFileSync git (force_delete_args b) NoOptions) w2)
    as [[e|out] w3]; simpl; [destruct (stderr e)|]; discriminate.
Qed.

(** In a turn, [git branch -D] is run exactly when the confirmation is
    answered "yes". *)
Lemma clean_turn_forced (b : jsstring) (w : W) :
  flat_map force_delete_of (trace (run h (GitClean.delete_branch b) w))
  = flat_map confirmed_of (trace (run h (GitClean.delete_branch b) w)).
Proof.
  unfold GitClean.delete_branch. simpl.
  destruct (h _ (ExecFileSync git (delete_args b) NoOptions) w)
    as [[err|out] w1]; simpl; [|reflexivity].
  destruct (includes not_fully_merged (message err)); simpl; [|reflexivity].
  destruct (h _ (PromptConfirm b) w1) as [[e|[|]] w2]; simpl; try reflexivity.
  destruct (h _ (ExecFileSync git (force_delete_args b) NoOptions) w2)
    as [[e|out] w3]; reflexivity.
Qed.

Lemma cleanup_turn_forced (dry : bool) (b : jsstring) (w : W) :
  flat_map force_delete_of (trace (run h (GitCleanup.delete_branch dry b) w))
  = flat_map confirmed_of (trace (run h (GitCleanup.delete_branch dry b) w)).
Proof.
  unfold GitCleanup.delete_branch, GitCleanup.print_stderr.
  destruct dry; simpl; [reflexivity|].
  destruct (h _ (ExecFileSync git (delete_args b) NoOptions) w)
    as [[err|out] w1]; simpl; [|reflexivity].
  destruct (includes not_fully_merged (message err)); simpl;
    [|destruct (stderr err); reflexivity].
  destruct (h _ (PromptConfirm b) w1) as [[e|[|]] w2]; simpl; try reflexivity.
  destruct (h _ (ExecFileSync git (force_delete_args b) NoOptions) w2)
    as [[e|out] w3]; simpl; [destruct (stderr e)|]; reflexivity.
Qed.

(** The commands of a turn are deletions of its branch, and a turn shows
    no selection prompt. *)
Lemma clean_turn_commands (b : jsstring) (w : W) :
  forallb is_delete_args
    (flat_map git_call_of (trace (run h (GitClean.delete_branch b) w))) = true
  /\ flat_map checkbox_of (trace (run h (GitClean.delete_branch b) w)) = [].
Proof.
  unfold GitClean.delete_branch. simpl.
  destruct (h _ (ExecFileSync git (delete_args b) NoOptions) w)
    as [[err|out] w1]; simpl; [|split; reflexivity].
  destruct (includes not_fully_merged (message err)); simpl; [|split; reflexivity].
  destruct (h _ (PromptConfirm b) w1) as [[e|[|]] w2]; simpl;
    try (split; reflexivity).
  destruct (h _ (ExecFileSync git (force_delete_args b) NoOptions) w2)
    as [[e|out] w3]; split; reflexivity.
Qed.

Lemma cleanup_turn_commands (dry : bool) (b : jsstring) (w : W) :
  forallb is_delete_args
    (flat_map git_call_of (trace (run h (GitCleanup.delete_branch dry b) w))) = true
  /\ flat_map checkbox_of (trace (run h (GitCleanup.delete_branch dry b) w)) = [].
Proof.
  unfold GitCleanup.delete_branch, GitCleanup.print_stderr.
  destruct dry; simpl; [split; reflexivity|].
  destruct (h _ (ExecFileSync git (delete_args b) NoOptions) w)
    as [[err|out] w1]; simpl; [|split; reflexivity].
  destruct (includes not_fully_merged (message err)); simpl;
    [|destruct (stderr err); split; reflexivity].
  destruct (h _ (PromptConfirm b) w1) as [[e|[|]] w2]; simpl;
    try (split; reflexivity).
  destruct (h _ (ExecFileSync git (force_delete_args b) NoOptions) w2)
    as [[e|out] w3]; simpl; [destruct (stderr e)|]; split; reflexivity.
Qed.

End Turns.

Section Runs.

Context {W : Type} (h : env W).

Lemma for_of_forallb {A : Type} (body : jsstring -> prog unit)
    (f : event -> list A) (p : A -> bool) :
  (forall b w, forallb p (flat_map f (trace (run h (body b) w))) = true) ->
  forall selection w,
    forallb p (flat_map f (trace (run h (for_of selection body) w))) = true.
Proof.
  intros Hbody. induction selection as [|b sel IH]; intros w; simpl.
  - reflexivity.
  - rewrite run_bind.
    destruct (outcome_of (run h (body b) w)); simpl; [|apply Hbody|apply Hbody].
    now rewrite flat_map_app, forallb_app, Hbody, IH.
Qed.

(** What an observation that ignores printing sees of a whole run: what
    it sees of the steps up to the selection, then of the loop. *)
Lemma clean_script_observed {A : Type} (f : event -> list A) (w : W) :
  (forall c m, f (Printed c m) = []) ->
  flat_map f (fst (run_process h GitClean.script w))
  = flat_map f (trace (run h GitClean.main_selection w))
    ++ match outcome_of (run h GitClean.main_selection w) with
       | Returned selection =>
           flat_map f
             (trace (run h (for_of selection GitClean.delete_branch)
                       (world (run h GitClean.main_selection w))))
       | _ => []
       end.
Proof.
  intros Hf. rewrite clean_script_run. cbv zeta.
  destruct (outcome_of (run h GitClean.main_selection w)) as [sel|e|code];
    cbn [fst].
  - destruct (outcome_of (run h (for_of sel GitClean.delete_branch)
                            (world (run h GitClean.main_selection w))));
      cbn [fst]; rewrite flat_map_app; simpl flat_map; rewrite Hf; simpl;
      rewrite ?flat_map_app; simpl; rewrite ?Hf, ?app_nil_r; reflexivity.
  - rewrite flat_map_app. simpl. now rewrite Hf.
  - now rewrite app_nil_r.
Qed.

Lemma cleanup_script_observed {A : Type} (f : event -> list A)
    (argv : list jsstring) (w : W) :
  (forall c m, f (Printed c m) = []) ->
  flat_map f (fst (run_process h (GitCleanup.script argv) w))
  = flat_map f (trace (run h (GitCleanup.main_selection argv) w))
    ++ match outcome_of (run h (GitCleanup.main_selection argv) w) with
       | Returned selection =>
           flat_map f
             (trace (run h (for_of selection
                              (GitCleanup.delete_branch (GitCleanup.isDryRun argv)))
                       (world (run h (GitCleanup.main_selection argv) w))))
       | _ => []
       end.
Proof.
  intros Hf. rewrite cleanup_script_run. cbv zeta.
  destruct (outcome_of (run h (GitCleanup.main_selection argv) w)) as [sel|e|code];
    cbn [fst].
  - destruct (outcome_of
                (run h (for_of sel (GitCleanup.delete_branch (GitCleanup.isDryRun argv)))
                   (world (run h (GitCleanup.main_selection argv) w))));
      cbn [fst]; rewrite flat_map_app; simpl flat_map; rewrite Hf; simpl;
      rewrite ?flat_map_app; simpl; rewrite ?Hf, ?app_nil_r; reflexivity.
  - now rewrite app_nil_r.
  - now rewrite app_nil_r.
Qed.

(** The steps up to the selection delete nothing, ask no confirmation, and
    run the three preparing commands in order, all three when a selection
    comes back. *)
Lemma clean_selection_observed (w : W) :
  let s := run h GitClean.main_selection w in
  flat_map safe_delete_of (trace s) = []
  /\ flat_map force_delete_of (trace s) = []
  /\ flat_map confirmed_of (trace s) = []
  /\ git_calls (trace s) = firstn (List.length (git_calls (trace s))) preparation
  /\ match outcome_of s with
     | Returned _ => git_calls (trace s) = preparation
     | _ => True
     end.
Proof.
  unfold GitClean.main_selection, GitClean.main_listing, GitClean.getInquirer.
  simpl. all_answers h; repeat (split; [reflexivity|]); first [reflexivity|exact I].
Qed.

Lemma cleanup_selection_observed (argv : list jsstring) (w : W) :
  let s := run h (GitCleanup.main_selection argv) w in
  flat_map safe_delete_of (trace s) = []
  /\ flat_map force_delete_of (trace s) = []
  /\ flat_map confirmed_of (trace s) = []
  /\ git_calls (trace s) = firstn (List.length (git_calls (trace s))) preparation
  /\ match outcome_of s with
     | Returned _ => git_calls (trace s) = preparation
     | _ => True
     end.
Proof.
  unfold GitCleanup.main_selection, GitCleanup.main_listing,
    GitCleanup.getDependencies, GitCleanup.print_stderr.
  simpl. destruct (GitCleanup.isDryRun argv); simpl;
    all_answers h; repeat (split; [reflexivity|]); first [reflexivity|exact I].
Qed.

End Runs.

(** X7: in every run of either script, the branches [git branch -D] is
    run on are exactly, and in order, the branches whose force-delete
    confirmation was answered "yes": nothing is ever forced without that
    answer, and every "yes" leads to the forcing command. *)
Theorem X7_forced_exactly_when_confirmed :
  forall (W : Type) (h : env W) (w : W),
    force_deletes (fst (run_process h GitClean.script w))
    = confirmed (fst (run_process h GitClean.script w))
    /\ forall argv,
         force_deletes (fst (run_process h (GitCleanup.script argv) w))
         = confirmed (fst (run_process h (GitCleanup.script argv) w)).
Proof.
  intros W h w. unfold force_deletes, confirmed. split.
  - rewrite !clean_script_observed by reflexivity.
    destruct (clean_selection_observed h w) as (_ & Hf & Hc & _).
    cbv zeta in Hf, Hc. rewrite Hf, Hc.
    destruct (outcome_of (run h GitClean.main_selection w)); [|reflexivity..].
    simpl. apply for_of_agree. apply clean_turn_forced.
  - intros argv. rewrite !cleanup_script_observed by reflexivity.
    destruct (cleanup_selection_observed h argv w) as (_ & Hf & Hc & _).
    cbv zeta in Hf, Hc. rewrite Hf, Hc.
    destruct (outcome_of (run h (GitCleanup.main_selection argv) w));
      [|reflexivity..].
    simpl. apply for_of_agree. apply cleanup_turn_forced.
Qed.

Section Targets.

Context {W : Type} (h : env W).

Lemma for_of_incl (body : jsstring -> prog unit) (f g : event -> list jsstring) :
  (forall b w,
      incl (flat_map f (trace (run h (body b) w)))
           (flat_map g (trace (run h (body b) w)))) ->
  forall selection w,
    incl (flat_map f (trace (run h (for_of selection body) w)))
         (flat_map g (trace (run h (for_of selection body) w))).
Proof.
  intros Hbody. induction selection as [|b sel IH]; intros w; simpl.
  - apply incl_refl.
  - rewrite run_bind.
    destruct (outcome_of (run h (body b) w)); simpl; [|apply Hbody|apply Hbody].
    rewrite !flat_map_app. apply incl_app.
    + apply incl_appl. apply Hbody.
    + apply incl_appr. apply IH.
Qed.

Lemma clean_turn_forced_is_tried (b : jsstring) (w : W) :
  incl (flat_map force_delete_of (trace (run h (GitClean.delete_branch b) w)))
       (flat_map safe_delete_of (trace (run h (GitClean.delete_branch b) w))).
Proof.
  rewrite clean_turn_safe.
  unfold GitClean.delete_branch. simpl.
  destruct (h _ (ExecFileSync git (delete_args b) NoOptions) w)
    as [[err|out] w1]; simpl; [|apply incl_nil_l].
  destruct (includes not_fully_merged (message err)); simpl; [|apply incl_nil_l].
  destruct (h _ (PromptConfirm b) w1) as [[e|[|]] w2]; simpl;
    try apply incl_nil_l.
  destruct (h _ (ExecFileSync git (force_delete_args b) NoOptions) w2)
    as [[e|out] w3]; apply incl_refl.
Qed.

Lemma cleanup_turn_forced_is_tried (dry : bool) (b : jsstring) (w : W) :
  incl (flat_map force_delete_of (trace (run h (GitCleanup.delete_branch dry b) w)))
       (flat_map safe_delete_of (trace (run h (GitCleanup.delete_branch dry b) w))).
Proof.
  destruct dry.
  - unfold GitCleanup.delete_branch. simpl. apply incl_refl.
  - rewrite cleanup_turn_safe.
    unfold GitCleanup.delete_branch, GitCleanup.print_stderr. simpl.
    destruct (h _ (ExecFileSync git (delete_args b) NoOptions) w)
      as [[err|out] w1]; simpl; [|apply incl_nil_l].
    destruct (includes not_fully_merged (message err)); simpl;
      [|destruct (stderr err); apply incl_nil_l].
    destruct (h _ (PromptConfirm b) w1) as [[e|[|]] w2]; simpl;
      try apply incl_nil_l.
    destruct (h _ (ExecFileSync git (force_delete_args b) NoOptions) w2)
      as [[e|out] w3]; simpl; [destruct (stderr e)|]; apply incl_refl.
Qed.

End Targets.

Lemma printed_lines_unobserved {A : Type} (f : event -> list A)
    (line : jsstring -> notice) (selection : list jsstring) :
  (forall c m, f (Printed c m) = []) ->
  flat_map f (map (fun b => Printed Log (line b)) selection) = [].
Proof.
  intros Hf. induction selection as [|b sel IH]; simpl; [reflexivity|].
  now rewrite Hf, IH.
Qed.

(** X8: either script deletes only what was selected.  When the steps up
    to the selection do not yield a selection, no [git branch -d] or [-D]
    is run at all; when they do, the branches [git branch -d] is run on are
    a prefix of the selection, in its order, and [git branch -D] is only run
    on branches [git branch -d] was run on. *)
Theorem X8_only_selected_branches_are_deleted :
  forall (W : Type) (h : env W) (w : W),
    (match outcome_of (run h GitClean.main_selection w) with
     | Returned selection =>
         exists rest,
           selection = safe_deletes (fst (run_process h GitClean.script w)) ++ rest
     | _ => existsb mutating_delete (fst (run_process h GitClean.script w)) = false
     end
     /\ incl (force_deletes (fst (run_process h GitClean.script w)))
             (safe_deletes (fst (run_process h GitClean.script w))))
    /\ forall argv,
         match outcome_of (run h (GitCleanup.main_selection argv) w) with
         | Returned selection =>
             exists rest,
               selection
               = safe_deletes (fst (run_process h (GitCleanup.script argv) w)) ++ rest
         | _ =>
             existsb mutating_delete (fst (run_process h (GitCleanup.script argv) w))
             = false
         end
         /\ incl (force_deletes (fst (run_process h (GitCleanup.script argv) w)))
                 (safe_deletes (fst (run_process h (GitCleanup.script argv) w))).
Proof.
  intros W h w. split; [|intros argv]; split.
  - destruct (clean_selection_quiet h w) as [_ Hq].
    destruct (clean_selection_observed h w) as (Hs & _). cbv zeta in Hs.
    destruct (outcome_of (run h GitClean.main_selection w)) as [sel|e|code] eqn:E.
    + unfold safe_deletes. rewrite clean_script_observed by reflexivity.
      rewrite Hs, E. cbn [app].
      apply for_of_prefix. apply clean_turn_safe.
    + rewrite clean_script_run. cbv zeta. rewrite E. cbn [fst].
      rewrite existsb_app, Hq. reflexivity.
    + rewrite clean_script_run. cbv zeta. rewrite E. exact Hq.
  - unfold force_deletes, safe_deletes.
    rewrite !clean_script_observed by reflexivity.
    destruct (clean_selection_observed h w) as (Hs & Hf & _).
    cbv zeta in Hs, Hf. rewrite Hs, Hf. cbn [app].
    destruct (outcome_of (run h GitClean.main_selection w)); [|apply incl_refl..].
    apply for_of_incl. apply clean_turn_forced_is_tried.
  - destruct (cleanup_selection_quiet h argv w) as [_ Hq].
    destruct (cleanup_selection_observed h argv w) as (Hs & _). cbv zeta in Hs.
    destruct (outcome_of (run h (GitCleanup.main_selection argv) w))
      as [sel|e|code] eqn:E.
    + unfold safe_deletes. rewrite cleanup_script_observed by reflexivity.
      rewrite Hs, E. cbn [app].
      destruct (GitCleanup.isDryRun argv).
      * exists sel. rewrite dry_loop. cbn [trace].
        now rewrite printed_lines_unobserved by reflexivity.
      * apply for_of_prefix. apply cleanup_turn_safe.
    + rewrite cleanup_script_run. cbv zeta. rewrite E. exact Hq.
    + rewrite cleanup_script_run. cbv zeta. rewrite E. exact Hq.
  - unfold force_deletes, safe_deletes.
    rewrite !cleanup_script_observed by reflexivity.
    destruct (cleanup_selection_observed h argv w) as (Hs & Hf & _).
    cbv zeta in Hs, Hf. rewrite Hs, Hf. cbn [app].
    destruct (outcome_of (run h (GitCleanup.main_selection argv) w));
      [|apply incl_refl..].
    apply for_of_incl. apply cleanup_turn_forced_is_tried.
Qed.

(** ** How a run ends *)

Lemma last_event_snoc (tr : list event) (e : event) : last_event (tr ++ [e]) = e.
Proof. unfold last_event. apply last_last. Qed.

Ltac exit_leaf :=
  first [ exact I
        | left; split; reflexivity
        | right; split; reflexivity ].

Section Endings.

Context {W : Type} (h : env W).

(** When the steps up to the selection end the process, it is with 0
    after a closing line or with 1 after a [console.error] line. *)
Lemma clean_selection_exit (w : W) :
  match outcome_of (run h GitClean.main_selection w) with
  | Exited code =>
      (code = 0%Z
       /\ is_closing_line (last_event (trace (run h GitClean.main_selection w))) = true)
      \/ (code = 1%Z
          /\ is_diagnostic (last_event (trace (run h GitClean.main_selection w))) = true)
  | _ => True
  end.
Proof.
  unfold GitClean.main_selection, GitClean.main_listing, GitClean.getInquirer.
  simpl. all_answers h; exit_leaf.
Qed.

Lemma cleanup_selection_exit (argv : list jsstring) (w : W) :
  match outcome_of (run h (GitCleanup.main_selection argv) w) with
  | Exited code =>
      (code = 0%Z
       /\ is_closing_line
            (last_event (trace (run h (GitCleanup.main_selection argv) w))) = true)
      \/ (code = 1%Z
          /\ is_diagnostic
               (last_event (trace (run h (GitCleanup.main_selection argv) w))) = true)
  | _ => True
  end.
Proof.
  unfold GitCleanup.main_selection, GitCleanup.main_listing,
    GitCleanup.getDependencies, GitCleanup.print_stderr.
  simpl. destruct (GitCleanup.isDryRun argv); simpl; all_answers h; exit_leaf.
Qed.

End Endings.

(** X9: every run of [git-clean.js] ends in one of two ways: with status 0,
    the last thing written being one of its three closing lines ("nothing
    to do", "cancelled", "complete"); or with status 1, the last thing
    written being a [console.error] line. *)
Theorem X9_git_clean_exit_status_and_last_line :
  forall (W : Type) (h : env W) (w : W),
    (snd (run_process h GitClean.script w) = 0%Z
     /\ is_closing_line (last_event (fst (run_process h GitClean.script w))) = true)
    \/ (snd (run_process h GitClean.script w) = 1%Z
        /\ is_diagnostic (last_event (fst (run_process h GitClean.script w))) = true).
Proof.
  intros W h w. rewrite clean_script_run. cbv zeta.
  pose proof (clean_selection_exit h w) as Hexit.
  destruct (outcome_of (run h GitClean.main_selection w)) as [sel|e|code].
  - pose proof (for_of_no_exit h GitClean.delete_branch (clean_turn_no_exit h)
                  sel (world (run h GitClean.main_selection w))) as Hno.
    destruct (outcome_of (run h (for_of sel GitClean.delete_branch)
                            (world (run h GitClean.main_selection w))))
      as [[]|e|code]; cbn [fst snd].
    + left. split; [reflexivity|].
      rewrite app_comm_cons, app_assoc, last_event_snoc. reflexivity.
    + right. split; [reflexivity|].
      rewrite app_comm_cons, app_assoc, last_event_snoc. reflexivity.
    + exfalso. now apply (Hno code).
  - right. cbn [fst snd]. split; [reflexivity|].
    rewrite last_event_snoc. reflexivity.
  - exact Hexit.
Qed.

(** X10: every run of [git-cleanup.js] ends with status 0 or 1; with 0,
    the last thing written is one of the three closing lines; with 1, the
    last thing written is a [console.error] line unless [main] rejected. *)
Theorem X10_git_cleanup_exit_status_and_last_line :
  forall (W : Type) (h : env W) (w : W) (argv : list jsstring),
    (snd (run_process h (GitCleanup.script argv) w) = 0%Z
     /\ is_closing_line (last_event (fst (run_process h (GitCleanup.script argv) w)))
        = true)
    \/ (snd (run_process h (GitCleanup.script argv) w) = 1%Z
        /\ (is_diagnostic (last_event (fst (run_process h (GitCleanup.script argv) w)))
            = true
            \/ exists e, outcome_of (run h (GitCleanup.main argv) w) = Threw e)).
Proof.
  intros W h w argv. rewrite cleanup_script_run. cbv zeta.
  pose proof (cleanup_selection_exit h argv w) as Hexit.
  unfold GitCleanup.main. cbn [bind ret Monad_prog]. rewrite run_bind.
  destruct (outcome_of (run h (GitCleanup.main_selection argv) w)) as [sel|e|code].
  - pose proof (for_of_no_exit h (GitCleanup.delete_branch (GitCleanup.isDryRun argv))
                  (cleanup_turn_no_exit h (GitCleanup.isDryRun argv))
                  sel (world (run h (GitCleanup.main_selection argv) w))) as Hno.
    cbn [console_log bind_prog run trace world pending outcome_of].
    rewrite run_bind.
    destruct (outcome_of
                (run h (for_of sel (GitCleanup.delete_branch (GitCleanup.isDryRun argv)))
                   (world (run h (GitCleanup.main_selection argv) w))))
      as [[]|e|code]; cbn [fst snd outcome_of].
    + left. split; [reflexivity|].
      rewrite app_comm_cons, app_assoc, last_event_snoc. reflexivity.
    + right. split; [reflexivity|]. right. now exists e.
    + exfalso. now apply (Hno code).
  - right. cbn [fst snd outcome_of]. split; [reflexivity|]. right. now exists e.
  - cbn [fst snd]. destruct Hexit as [[-> Hc]|[-> Hd]].
    + left. now split.
    + right. split; [reflexivity|]. now left.
Qed.

(** ** The order of the commands, and the selection prompt *)

(** X11: in every run of either script the [git] commands come in a fixed
    order: a prefix of [rev-parse --is-inside-work-tree], [fetch -p],
    [branch -vv], then nothing but [branch -d <name>] and [branch -D
    <name>]; and a deletion is only run after all three. *)
Theorem X11_git_commands_come_in_order :
  forall (W : Type) (h : env W) (w : W),
    (exists n deletes,
        git_calls (fst (run_process h GitClean.script w))
        = firstn n preparation ++ deletes
        /\ forallb is_delete_args deletes = true
        /\ (n = 3%nat \/ deletes = []))
    /\ forall argv,
         exists n deletes,
           git_calls (fst (run_process h (GitCleanup.script argv) w))
           = firstn n preparation ++ deletes
           /\ forallb is_delete_args deletes = true
           /\ (n = 3%nat \/ deletes = []).
Proof.
  intros W h w. split; [|intros argv]; unfold git_calls.
  - rewrite clean_script_observed by reflexivity.
    destruct (clean_selection_observed h w) as (_ & _ & _ & Hg & Hall).
    cbv zeta in Hg, Hall. unfold git_calls in Hg, Hall.
    destruct (outcome_of (run h GitClean.main_selection w)) as [sel|e|code].
    + exists 3%nat. eexists. rewrite Hall. split; [reflexivity|].
      split; [|now left].
      apply for_of_forallb. intros b w'. apply clean_turn_commands.
    + eexists. exists []. split; [rewrite Hg at 1; reflexivity|].
      split; [reflexivity|now right].
    + eexists. exists []. split; [rewrite Hg at 1; reflexivity|].
      split; [reflexivity|now right].
  - rewrite cleanup_script_observed by reflexivity.
    destruct (cleanup_selection_observed h argv w) as (_ & _ & _ & Hg & Hall).
    cbv zeta in Hg, Hall. unfold git_calls in Hg, Hall.
    destruct (outcome_of (run h (GitCleanup.main_selection argv) w)) as [sel|e|code].
    + exists 3%nat. eexists. rewrite Hall. split; [reflexivity|].
      split; [|now left].
      apply for_of_forallb. intros b w'. apply cleanup_turn_commands.
    + eexists. exists []. split; [rewrite Hg at 1; reflexivity|].
      split; [reflexivity|now right].
    + eexists. exists []. split; [rewrite Hg at 1; reflexivity|].
      split; [reflexivity|now right].
Qed.

(** Case analysis that remembers the outcome of the emptiness tests. *)
Ltac all_answers_remembering h :=
  repeat first
    [ progress (answer_all h)
    | match goal with
      | |- context [stderr ?e] => destruct (stderr e); simpl
      | |- context [Nat.eqb ?n 0] => destruct (Nat.eqb n 0) eqn:?; simpl
      | |- context [truthy ?v && isArray ?v] => rewrite (truthy_array v)
      | |- context [lookup ?k ?p] => destruct (lookup k p); simpl
      | v : json |- _ => destruct v; simpl
      end ].

Ltac offered_leaf :=
  first
    [ exact I
    | split;
      [ let Hnil := fresh "Hnil" in
        intros Hnil;
        match goal with
        | E : Nat.eqb (List.length ?l) 0 = false |- _ =>
            rewrite Hnil in E; discriminate E
        end
      | first [ apply candidates_well_formed
              | rewrite clean_is_cleanup; apply candidates_well_formed ] ] ].

Arguments array_includes : simpl never.

Section Offer.

Context {W : Type} (h : env W).

Lemma clean_selection_offer (w : W) :
  match selections_offered (trace (run h GitClean.main_selection w)) with
  | [] => True
  | [choices] =>
      choices <> []
      /\ Forall (fun b => well_formed_name b
                          /\ array_includes GitClean.protectedBranches b = false)
           choices
  | _ => False
  end.
Proof.
  unfold GitClean.main_selection, GitClean.main_listing, GitClean.getInquirer.
  simpl. all_answers_remembering h; offered_leaf.
Qed.

Lemma cleanup_selection_offer (argv : list jsstring) (w : W) :
  match selections_offered (trace (run h (GitCleanup.main_selection argv) w)) with
  | [] => True
  | [choices] => choices <> [] /\ Forall well_formed_name choices
  | _ => False
  end.
Proof.
  unfold GitCleanup.main_selection, GitCleanup.main_listing,
    GitCleanup.getDependencies, GitCleanup.print_stderr.
  simpl. destruct (GitCleanup.isDryRun argv); simpl;
    all_answers_remembering h;
    first [ exact I
          | split;
            [ let Hnil := fresh "Hnil" in
              intros Hnil;
              match goal with
              | E : Nat.eqb (List.length ?l) 0 = false |- _ =>
                  rewrite Hnil in E; discriminate E
              end
            | eapply Forall_impl; [|apply candidates_well_formed];
              intros b Hb; exact (proj1 Hb) ] ].
Qed.

End Offer.

(** X12: a run shows the selection prompt at most once, and what it
    offers is never an empty list: the choices are non-empty names without
    space or line feed (and, in [git-clean.js], none of [main], [master],
    [develop], [dev]). *)
Theorem X12_selection_prompt_once_with_real_choices :
  forall (W : Type) (h : env W) (w : W),
    match selections_offered (fst (run_process h GitClean.script w)) with
    | [] => True
    | [choices] =>
        choices <> []
        /\ Forall (fun b => well_formed_name b
                            /\ array_includes GitClean.protectedBranches b = false)
             choices
    | _ => False
    end
    /\ forall argv,
         match selections_offered (fst (run_process h (GitCleanup.script argv) w)) with
         | [] => True
         | [choices] => choices <> [] /\ Forall well_formed_name choices
         | _ => False
         end.
Proof.
  intros W h w. split; [|intros argv]; unfold selections_offered.
  - rewrite clean_script_observed by reflexivity.
    replace (match outcome_of (run h GitClean.main_selection w) with
             | Returned selection =>
                 flat_map checkbox_of
                   (trace (run h (for_of selection GitClean.delete_branch)
                             (world (run h GitClean.main_selection w))))
             | _ => []
             end) with (@nil (list jsstring)).
    + rewrite app_nil_r. apply clean_selection_offer.
    + destruct (outcome_of (run h GitClean.main_selection w)); [|reflexivity..].
      symmetry. apply for_of_none. intros b w'. apply clean_turn_commands.
  - rewrite cleanup_script_observed by reflexivity.
    replace (match outcome_of (run h (GitCleanup.main_selection argv) w) with
             | Returned selection =>
                 flat_map checkbox_of
                   (trace (run h (for_of selection
                                    (GitCleanup.delete_branch (GitCleanup.isDryRun argv)))
                             (world (run h (GitCleanup.main_selection argv) w))))
             | _ => []
             end) with (@nil (list jsstring)).
    + rewrite app_nil_r. apply cleanup_selection_offer.
    + destruct (outcome_of (run h (GitCleanup.main_selection argv) w));
        [|reflexivity..].
      symmetry. apply for_of_none. intros b w'. apply cleanup_turn_commands.
Qed.

(** ** The runs that stop early *)

(** X13: outside a work tree ([git rev-parse] fails) either script writes
    its "not a Git repository" line with [console.error] and exits with
    status 1, having run no other command and shown no prompt. *)
Theorem X13_not_a_repository_stops_at_once :
  forall (W : Type) (h : env W) (w : W),
    (forall e w1,
        h _ (ExecFileSync git rev_parse_args StdioIgnore) w = (inl e, w1) ->
        run_process h GitClean.script w
        = ([Called (ExecFileSync git rev_parse_args StdioIgnore) (inl e);
            Printed Error MsgNotARepository],
           1%Z))
    /\ (forall argv e w1 w2 w3,
           h _ (Import (str "inquirer")) w = (inr tt, w1) ->
           h _ (Import (str "chalk")) w1 = (inr tt, w2) ->
           h _ (ExecFileSync git rev_parse_args StdioIgnore) w2 = (inl e, w3) ->
           run_process h (GitCleanup.script argv) w
           = ([Called (Import (str "inquirer")) (inr tt);
               Called (Import (str "chalk")) (inr tt)]
              ++ (if GitCleanup.isDryRun argv then [Printed Log MsgDryRun] else [])
              ++ [Called (ExecFileSync git rev_parse_args StdioIgnore) (inl e);
                  Printed Error MsgNotARepository],
              1%Z)).
Proof.
  intros W h w. split.
  - intros e w1 H. rewrite clean_script_run. cbv zeta.
    unfold GitClean.main_selection, GitClean.main_listing.
    simpl. rewrite H. reflexivity.
  - intros argv e w1 w2 w3 H1 H2 H3. rewrite cleanup_script_run. cbv zeta.
    unfold GitCleanup.main_selection, GitCleanup.main_listing,
      GitCleanup.getDependencies.
    simpl. rewrite H1. simpl. rewrite H2.
    destruct (GitCleanup.isDryRun argv); simpl; rewrite H3; reflexivity.
Qed.

(** Both scripts outside a work tree. *)
Lemma X13_witness :
  snd (run_process Sample.answer GitClean.script Sample2.not_a_repository) = 1%Z
  /\ git_calls (fst (run_process Sample.answer GitClean.script Sample2.not_a_repository))
     = [rev_parse_args]
  /\ snd (run_process Sample.answer (GitCleanup.script dry_run_argv)
            Sample2.not_a_repository) = 1%Z
  /\ git_calls (fst (run_process Sample.answer (GitCleanup.script dry_run_argv)
                       Sample2.not_a_repository))
     = [rev_parse_args].
Proof.
  destruct (X13_not_a_repository_stops_at_once
              Sample.state Sample.answer Sample2.not_a_repository) as [Hclean Hcleanup].
  rewrite (Hclean (Sample.failed "fatal: not a git repository")
             Sample2.not_a_repository) by (vm_compute; reflexivity).
  rewrite (Hcleanup dry_run_argv (Sample.failed "fatal: not a git repository")
             Sample2.not_a_repository Sample2.not_a_repository
             Sample2.not_a_repository)
    by (vm_compute; reflexivity).
  repeat (split; [vm_compute; reflexivity|]). vm_compute. reflexivity.
Defined.

(** X14: when [git fetch -p] fails, either script writes its "failed to
    fetch" line with [console.error] ([git-cleanup.js] adds the captured
    error output when there is one) and exits with status 1: [git branch
    -vv] is not run, nothing is offered, nothing is deleted. *)
Theorem X14_fetch_failure_stops_before_listing :
  forall (W : Type) (h : env W) (w : W),
    (forall out e w1 w2,
        h _ (ExecFileSync git rev_parse_args StdioIgnore) w = (inr out, w1) ->
        h _ (ExecFileSync git fetch_args StdioInherit) w1 = (inl e, w2) ->
        run_process h GitClean.script w
        = ([Called (ExecFileSync git rev_parse_args StdioIgnore) (inr out);
            Printed Log MsgFetching;
            Called (ExecFileSync git fetch_args StdioInherit) (inl e);
            Printed Error MsgFetchFailed],
           1%Z))
    /\ (forall argv out e w1 w2 w3 w4,
           h _ (Import (str "inquirer")) w = (inr tt, w1) ->
           h _ (Import (str "chalk")) w1 = (inr tt, w2) ->
           h _ (ExecFileSync git rev_parse_args StdioIgnore) w2 = (inr out, w3) ->
           h _ (ExecFileSync git fetch_args StdioInherit) w3 = (inl e, w4) ->
           run_process h (GitCleanup.script argv) w
           = ([Called (Import (str "inquirer")) (inr tt);
               Called (Import (str "chalk")) (inr tt)]
              ++ (if GitCleanup.isDryRun argv then [Printed Log MsgDryRun] else [])
              ++ [Called (ExecFileSync git rev_parse_args StdioIgnore) (inr out);
                  Printed Log MsgFetching;
                  Called (ExecFileSync git fetch_args StdioInherit) (inl e);
                  Printed Error MsgFetchFailed]
              ++ match stderr e with
                 | Some text => [Printed Error (MsgStderr text)]
                 | None => []
                 end,
              1%Z)).
Proof.
  intros W h w. split.
  - intros out e w1 w2 H1 H2. rewrite clean_script_run. cbv zeta.
    unfold GitClean.main_selection, GitClean.main_listing.
    simpl. rewrite H1. simpl. rewrite H2. reflexivity.
  - intros argv out e w1 w2 w3 w4 H1 H2 H3 H4. rewrite cleanup_script_run. cbv zeta.
    unfold GitCleanup.main_selection, GitCleanup.main_listing,
      GitCleanup.getDependencies, GitCleanup.print_stderr.
    simpl. rewrite H1. simpl. rewrite H2.
    destruct (GitCleanup.isDryRun argv); simpl; rewrite H3; simpl; rewrite H4;
      simpl; destruct (stderr e); reflexivity.
Qed.

(** Both scripts with an unreachable remote. *)
Lemma X14_witness :
  snd (run_process Sample.answer GitClean.script Sample2.fetch_fails) = 1%Z
  /\ git_calls (fst (run_process Sample.answer GitClean.script Sample2.fetch_fails))
     = [rev_parse_args; fetch_args]
  /\ snd (run_process Sample.answer (GitCleanup.script []) Sample2.fetch_fails) = 1%Z
  /\ git_calls (fst (run_process Sample.answer (GitCleanup.script [])
                       Sample2.fetch_fails))
     = [rev_parse_args; fetch_args].
Proof.
  destruct (X14_fetch_failure_stops_before_listing
              Sample.state Sample.answer Sample2.fetch_fails) as [Hclean Hcleanup].
  rewrite (Hclean (str "true") (mkError (str "Command failed: git fetch -p") None)
             Sample2.fetch_fails Sample2.fetch_fails)
    by (vm_compute; reflexivity).
  rewrite (Hcleanup [] (str "true") (mkError (str "Command failed: git fetch -p") None)
             Sample2.fetch_fails Sample2.fetch_fails Sample2.fetch_fails
             Sample2.fetch_fails)
    by (vm_compute; reflexivity).
  repeat (split; [vm_compute; reflexivity|]). vm_compute. reflexivity.
Defined.

Lemma length_not_zero {A : Type} (l : list A) :
  l <> [] -> Nat.eqb (List.length l) 0 = false.
Proof. destruct l; [contradiction|reflexivity]. Qed.

(** X15: when there are candidates and the user confirms the selection
    prompt with nothing ticked, either script writes its "cancelled" line
    and exits with status 0; no [git branch -d] or [-D] is run. *)
Theorem X15_empty_selection_cancels :
  forall (W : Type) (h : env W) (w : W),
    (forall text w1 w2,
        outcome_of (run h GitClean.main_listing w) = Returned text ->
        GitClean.goneBranches text <> [] ->
        h _ (Import (str "inquirer")) (world (run h GitClean.main_listing w))
        = (inr tt, w1) ->
        h _ (PromptCheckbox (GitClean.goneBranches text)) w1 = (inr [], w2) ->
        run_process h GitClean.script w
        = (trace (run h GitClean.main_listing w)
           ++ [Called (Import (str "inquirer")) (inr tt);
               Called (PromptCheckbox (GitClean.goneBranches text)) (inr []);
               Printed Log MsgCancelled],
           0%Z)
        /\ existsb mutating_delete (fst (run_process h GitClean.script w)) = false)
    /\ (forall argv text names w1,
           outcome_of (run h (GitCleanup.main_listing argv) w) = Returned (text, names) ->
           GitCleanup.goneBranches text names <> [] ->
           h _ (PromptCheckbox (GitCleanup.goneBranches text names))
             (world (run h (GitCleanup.main_listing argv) w))
           = (inr [], w1) ->
           run_process h (GitCleanup.script argv) w
           = (trace (run h (GitCleanup.main_listing argv) w)
              ++ [Called (PromptCheckbox (GitCleanup.goneBranches text names)) (inr []);
                  Printed Log MsgCancelled],
              0%Z)
           /\ existsb mutating_delete (fst (run_process h (GitCleanup.script argv) w))
              = false).
Proof.
  intros W h w. split.
  - intros text w1 w2 Hout Hgone Himp Hask.
    assert (Hsel : run h GitClean.main_selection w
                   = mkResult
                       (trace (run h GitClean.main_listing w)
                        ++ [Called (Import (str "inquirer")) (inr tt);
                            Called (PromptCheckbox (GitClean.goneBranches text)) (inr []);
                            Printed Log MsgCancelled])
                       w2 [] (Exited 0)).
    { destruct (clean_listing_quiet h w) as [Hp _].
      unfold GitClean.main_selection. cbn [bind ret Monad_prog].
      rewrite run_bind.
      destruct (run h GitClean.main_listing w) as [t0 w0 p0 o0].
      cbn [outcome_of world trace pending] in *. subst o0 p0.
      cbv zeta. rewrite (length_not_zero _ Hgone).
      unfold GitClean.getInquirer. simpl. rewrite Himp. simpl. rewrite Hask.
      reflexivity. }
    destruct (clean_selection_quiet h w) as [_ Hq].
    rewrite clean_script_run. cbv zeta. rewrite Hsel in *. cbn [outcome_of trace fst] in *.
    split; [reflexivity|exact Hq].
  - intros argv text names w1 Hout Hgone Hask.
    assert (Hsel : run h (GitCleanup.main_selection argv) w
                   = mkResult
                       (trace (run h (GitCleanup.main_listing argv) w)
                        ++ [Called (PromptCheckbox (GitCleanup.goneBranches text names))
                              (inr []);
                            Printed Log MsgCancelled])
                       w1 [] (Exited 0)).
    { destruct (cleanup_listing_quiet h argv w) as [Hp _].
      unfold GitCleanup.main_selection. cbn [bind ret Monad_prog].
      rewrite run_bind.
      destruct (run h (GitCleanup.main_listing argv) w) as [t0 w0 p0 o0].
      cbn [outcome_of world trace pending] in *. subst o0 p0.
      cbv zeta. cbn [fst snd]. rewrite (length_not_zero _ Hgone).
      simpl. rewrite Hask. reflexivity. }
    destruct (cleanup_selection_quiet h argv w) as [_ Hq].
    rewrite cleanup_script_run. cbv zeta. rewrite Hsel in *.
    cbn [outcome_of trace fst] in *.
    split; [reflexivity|exact Hq].
Qed.

(** Both scripts on the sample repository with nothing ticked. *)
Lemma X15_witness :
  snd (run_process Sample.answer GitClean.script Sample2.nothing_chosen) = 0%Z
  /\ existsb mutating_delete
       (fst (run_process Sample.answer GitClean.script Sample2.nothing_chosen)) = false
  /\ snd (run_process Sample.answer (GitCleanup.script []) Sample2.nothing_chosen) = 0%Z
  /\ existsb mutating_delete
       (fst (run_process Sample.answer (GitCleanup.script []) Sample2.nothing_chosen))
     = false.
Proof.
  destruct (X15_empty_selection_cancels
              Sample.state Sample.answer Sample2.nothing_chosen) as [Hclean Hcleanup].
  destruct (Hclean Sample2.two_gone_text Sample2.nothing_chosen Sample2.nothing_chosen)
    as [R1 D1].
  { vm_compute. reflexivity. }
  { vm_compute. discriminate. }
  { vm_compute. reflexivity. }
  { vm_compute. reflexivity. }
  destruct (Hcleanup [] Sample2.two_gone_text GitCleanup.defaults
              Sample2.nothing_chosen) as [R2 D2].
  { vm_compute. reflexivity. }
  { vm_compute. discriminate. }
  { vm_compute. reflexivity. }
  split; [rewrite R1; reflexivity|]. split; [exact D1|].
  split; [rewrite R2; reflexivity|exact D2].
Defined.

(** X16: when [main] rejects (an import, [git branch -vv] or a prompt
    fails), [git-clean.js] writes the error with [console.error] and exits
    with status 1; [git-cleanup.js] exits with status 1 and its handler
    writes nothing, the line being left in a reaction that never runs. *)
Theorem X16_rejection_of_main :
  forall (W : Type) (h : env W) (w : W) (e : error),
    (outcome_of (run h GitClean.main w) = Threw e ->
     run_process h GitClean.script w
     = (trace (run h GitClean.main w) ++ [Printed Error (MsgUnexpected e)], 1%Z))
    /\ forall argv,
         outcome_of (run h (GitCleanup.main argv) w) = Threw e ->
         run_process h (GitCleanup.script argv) w
         = (trace (run h (GitCleanup.main argv) w), 1%Z)
         /\ pending (run h (GitCleanup.script argv) w)
            = pending (run h (GitCleanup.main argv) w)
              ++ [attempt (Import (str "chalk")) ;; console_error (MsgUnexpected e)].
Proof.
  intros W h w e. split.
  - apply clean_rejection_is_reported.
  - intros argv H. split; [exact (cleanup_rejection_is_silent h w argv e H)|].
    unfold GitCleanup.script. rewrite run_try_catch, H. reflexivity.
Qed.

(** Both scripts when [git branch -vv] fails. *)
Lemma X16_witness :
  snd (run_process Sample.answer GitClean.script Sample.listing_fails) = 1%Z
  /\ existsb is_diagnostic
       (fst (run_process Sample.answer GitClean.script Sample.listing_fails)) = true
  /\ snd (run_process Sample.answer (GitCleanup.script []) Sample.listing_fails) = 1%Z
  /\ existsb is_diagnostic
       (fst (run_process Sample.answer (GitCleanup.script []) Sample.listing_fails))
     = false.
Proof.
  destruct (X16_rejection_of_main Sample.state Sample.answer Sample.listing_fails
              (Sample.failed "fatal: unable to read the branch list"))
    as [Hclean Hcleanup].
  rewrite Hclean by (vm_compute; reflexivity).
  destruct (Hcleanup []) as [R _]; [vm_compute; reflexivity|].
  rewrite R.
  repeat (split; [vm_compute; reflexivity|]). vm_compute. reflexivity.
Defined.

(** ** The configuration lookup, seen from outside *)

(** X17: the configuration lookup prints exactly one status line ("loaded"
    when the file gives a valid array, "falling back" when reading,
    parsing or the field access threw, "using defaults" otherwise); it
    writes with [console.error] exactly when something threw; and it runs
    no [git] command, shows no prompt and queues nothing. *)
Theorem X17_configuration_lookup_status :
  forall (W : Type) (h : env W) (w : W),
    let r := run h GitCleanup.getProtectedBranches w in
    let reading := read_config h w in
    flat_map status_line_of (trace r)
    = [match valid_protected_field reading with
       | Some _ => MsgLoadedConfig
       | None => if config_throws reading then MsgFallingBack else MsgUsingDefaults
       end]
    /\ existsb is_diagnostic (trace r) = config_throws reading
    /\ git_calls (trace r) = []
    /\ existsb is_prompt (trace r) = false
    /\ pending r = [].
Proof.
  intros W h w. unfold read_config, GitCleanup.getProtectedBranches. simpl.
  next_answer h. destruct x; simpl; [|repeat split; reflexivity].
  next_answer h. destruct x as [e|text]; simpl; [repeat split; reflexivity|].
  next_answer h. destruct x as [e|v]; simpl; [repeat split; reflexivity|].
  destruct v as [|b|bits|s|items|props]; simpl; try (repeat split; reflexivity).
  destruct (lookup (str "protectedBranches") props) as [field|]; simpl;
    [|repeat split; reflexivity].
  rewrite truthy_array. destruct field; simpl; repeat split; reflexivity.
Qed.

(** ** What the loop says *)

Section Reports.

Context {W : Type} (h : env W).

Lemma for_of_agree_any {A : Type} (body : jsstring -> prog unit)
    (f g : event -> list A) :
  (forall b w,
      flat_map f (trace (run h (body b) w)) = flat_map g (trace (run h (body b) w))) ->
  forall selection w,
    flat_map f (trace (run h (for_of selection body) w))
    = flat_map g (trace (run h (for_of selection body) w)).
Proof.
  intros Hbody. induction selection as [|b rest IH]; intros w; simpl.
  - reflexivity.
  - rewrite run_bind.
    destruct (outcome_of (run h (body b) w)); simpl; [|apply Hbody|apply Hbody].
    now rewrite !flat_map_app, Hbody, IH.
Qed.

Lemma clean_turn_reports (b : jsstring) (w : W) :
  flat_map reported_of (trace (run h (GitClean.delete_branch b) w))
  = flat_map happened_of (trace (run h (GitClean.delete_branch b) w)).
Proof.
  unfold GitClean.delete_branch. simpl.
  destruct (h _ (ExecFileSync git (delete_args b) NoOptions) w)
    as [[err|out] w1]; simpl; [|reflexivity].
  change (JS.eqb git git && JS.eqb (str "branch") (str "branch")) with true.
  change (JS.eqb (str "-d") (str "-d")) with true. cbv iota.
  destruct (includes not_fully_merged (message err)); simpl; [|reflexivity].
  destruct (h _ (PromptConfirm b) w1) as [[e|[|]] w2]; simpl; try reflexivity.
  destruct (h _ (ExecFileSync git (force_delete_args b) NoOptions) w2)
    as [[e|out] w3]; reflexivity.
Qed.

Lemma cleanup_turn_reports (b : jsstring) (w : W) :
  flat_map reported_of (trace (run h (GitCleanup.delete_branch false b) w))
  = flat_map happened_of (trace (run h (GitCleanup.delete_branch false b) w)).
Proof.
  unfold GitCleanup.delete_branch, GitCleanup.print_stderr. simpl.
  destruct (h _ (ExecFileSync git (delete_args b) NoOptions) w)
    as [[err|out] w1]; simpl; [|reflexivity].
  change (JS.eqb git git && JS.eqb (str "branch") (str "branch")) with true.
  change (JS.eqb (str "-d") (str "-d")) with true. cbv iota.
  destruct (includes not_fully_merged (message err)); simpl;
    [|destruct (stderr err); reflexivity].
  destruct (h _ (PromptConfirm b) w1) as [[e|[|]] w2]; simpl; try reflexivity.
  destruct (h _ (ExecFileSync git (force_delete_args b) NoOptions) w2)
    as [[e|out] w3]; simpl; [destruct (stderr e)|]; reflexivity.
Qed.

End Reports.

(** X18: outside a dry run, the loop reports what happened and nothing
    else: the "Deleted", "has unmerged changes", "Failed to delete",
    "Skipped", "Force deleted" and "Failed to force delete" lines it writes
    are, in order and one for one, the successes and failures of [git branch
    -d] and [-D] and the declined confirmations. *)
Theorem X18_the_loop_reports_what_happened :
  forall (W : Type) (h : env W) (selection : list jsstring) (w : W),
    reported (trace (run h (for_of selection GitClean.delete_branch) w))
    = happened (trace (run h (for_of selection GitClean.delete_branch) w))
    /\ reported (trace (run h (for_of selection (GitCleanup.delete_branch false)) w))
       = happened (trace (run h (for_of selection (GitCleanup.delete_branch false)) w)).
Proof.
  intros W h selection w. unfold reported, happened. split.
  - apply for_of_agree_any. apply clean_turn_reports.
  - apply for_of_agree_any. apply cleanup_turn_reports.
Qed.
